(** * LocNet: visualisation utilities, evaluation runner and data loaders

    A shallow embedding of
      - [visualizations/visualize_utils.py]  (co-localisation maps, clipping,
        phrase aggregation, segmentation view),
      - [visualizations/genome_processor.py] ([GenomeViz.loc_eval]),
      - [dataloader/get_loader.py]           (the three loader constructors).

    Python exceptions are values of [PyExc]; a call that may raise returns a
    [result].  Python lists are Rocq lists; a [dict] keyed by strings is a
    [gmap string _].  The collaborators that live outside these three files
    (the encoders, [matchmap_generate], [cv2.resize], the dataset classes)
    are section variables. *)

From Stdlib Require Import ZArith QArith Lia Ascii String.
From stdpp Require Import base list strings gmap pretty.

Local Open Scope string_scope.
Local Open Scope Z_scope.
Local Open Scope list_scope.

(** ** Exceptions and results *)

Inductive PyExc : Set :=
| ValueError
| IndexError
| KeyError
| TypeError
| AttributeError
| AssertionError
| StatisticsError
| UnboundLocalError.

Inductive result (A : Type) : Type :=
| Ok (a : A)
| Raise (e : PyExc).

Arguments Ok {A} a.
Arguments Raise {A} e.

#[export] Instance result_ret : MRet result := fun A a => Ok a.
#[export] Instance result_bind : MBind result := fun A B f m =>
  match m with
  | Ok a => f a
  | Raise e => Raise e
  end.

Definition returns {A : Type} (r : result A) : Prop :=
  match r with
  | Ok _ => True
  | Raise _ => False
  end.

(** ** Python list primitives *)

Module Py.

(** [l[i]] for an integer [i]: negative indices count from the end, anything
    outside [-len(l) .. len(l)-1] raises [IndexError]. *)
Definition getitem {A : Type} (l : list A) (i : Z) : result A :=
  let n := Z.of_nat (length l) in
  let j := if i <? 0 then i + n else i in
  if (0 <=? j) && (j <? n) then
    match l !! Z.to_nat j with
    | Some x => Ok x
    | None => Raise IndexError
    end
  else Raise IndexError.

(** [l.index(x)]: position of the first occurrence, [ValueError] if there is
    none. *)
Fixpoint index_from (x : string) (l : list string) (k : nat) : result nat :=
  match l with
  | [] => Raise ValueError
  | y :: l' => if String.eqb y x then Ok k else index_from x l' (S k)
  end.

Definition index (l : list string) (x : string) : result nat :=
  index_from x l 0.

(** [del l[k:]] for [k >= 0] keeps the first [k] items (a slice never
    raises). *)
Definition del_from {A : Type} (k : nat) (l : list A) : list A := take k l.

(** [del l[0]]: [IndexError] on the empty list. *)
Definition del_first {A : Type} (l : list A) : result (list A) :=
  match l with
  | [] => Raise IndexError
  | _ :: l' => Ok l'
  end.

(** [np.arange(n)] / [range(n)] for an integer [n]: [0, 1, ..., n-1], empty
    when [n <= 0]. *)
Definition arange (n : Z) : list Z := map Z.of_nat (seq 0 (Z.to_nat n)).

(** A [for] loop whose body appends one item per iteration and may raise. *)
Fixpoint for_append {A B : Type} (body : A -> result B) (l : list A)
  : result (list B) :=
  match l with
  | [] => Ok []
  | x :: l' =>
      y ← body x;
      ys ← for_append body l';
      Ok (y :: ys)
  end.

(** The two kinds of object met by the [+] of [seg_viz]: a [range] and an
    [int].  [int + int] adds; a [range] has no [__add__] and [int.__radd__]
    does not accept one, so every other combination is a [TypeError]. *)
Inductive value : Set :=
| Range (n : Z)
| Int (z : Z).

Definition add (a b : value) : result value :=
  match a, b with
  | Int x, Int y => Ok (Int (x + y))
  | _, _ => Raise TypeError
  end.

(** Iterating: a [range] yields its integers, an [int] is not iterable. *)
Definition iter (v : value) : result (list Z) :=
  match v with
  | Range n => Ok (arange n)
  | Int _ => Raise TypeError
  end.

(** [os.path.join] of [posixpath]: a component that starts with the
    separator replaces what came before; an empty prefix or one that ends
    with the separator takes the component as it is. *)
Fixpoint ends_with_sep (s : string) : bool :=
  match s with
  | EmptyString => false
  | String c EmptyString => Ascii.eqb c "/"%char
  | String _ s' => ends_with_sep s'
  end.

Definition starts_with_sep (s : string) : bool :=
  match s with
  | String c _ => Ascii.eqb c "/"%char
  | EmptyString => false
  end.

Definition join_step (path b : string) : string :=
  if starts_with_sep b then b
  else if String.eqb path "" || ends_with_sep path then String.append path b
  else String.append path (String.append "/" b).

Definition path_join (a : string) (p : list string) : string :=
  fold_left join_step p a.

(** [statistics.mean] on integers: the exact mean (an [int] when it is
    integral, otherwise the float nearest to this rational);
    [StatisticsError] on no data. *)
Definition mean (data : list Z) : result Q :=
  match data with
  | [] => Raise StatisticsError
  | _ => Ok (Qred (Qmake (fold_left Z.add data 0) (Pos.of_nat (length data))))
  end.

End Py.

(** ** [visualize_utils.py] *)

(** The element dictionary of [fetch_data] (keys [coloc_map], [image],
    [caption], [name]), before and after an element processor has run. *)
Record RawElement (M T C : Type) : Type := mkRaw {
  raw_coloc_map : list M;
  raw_image : T;
  raw_caption : C;
  raw_name : string
}.

Record Element (M I C : Type) : Type := mkElement {
  coloc_map : list M;
  image : I;
  caption : C;
  name : string
}.

Arguments mkRaw {M T C} _ _ _ _.
Arguments raw_coloc_map {M T C} _.
Arguments raw_image {M T C} _.
Arguments raw_caption {M T C} _.
Arguments raw_name {M T C} _.
Arguments mkElement {M I C} _ _ _ _.
Arguments coloc_map {M I C} _.
Arguments image {M I C} _.
Arguments caption {M I C} _.
Arguments name {M I C} _.

(** One entry of the Flickr caption data, [data[ann_id]]. *)
Record CaptionData : Type := mkCaptionData {
  caption_index : list (list Z);
  parsed_caption : list (list string);
  tok_sent : list string
}.

(** A model object as [gen_coloc_maps] uses it: it is called on a batch, and
    its attribute [size] is looked up ([None]: the object has no such
    attribute, as for a [torch.nn.Module]). *)
Record Model (X Y : Type) : Type := mkModel {
  forward : list X -> list Y;
  size_attr : option (Z -> Z)
}.

Arguments mkModel {X Y} _ _.
Arguments forward {X Y} _ _.
Arguments size_attr {X Y} _.

(** One subplot drawn by [seg_viz]. *)
Record Subplot (M P : Type) : Type := mkSubplot {
  sp_position : Z;
  sp_mask : M;
  sp_mask2 : list Z;
  sp_title : P
}.

Arguments mkSubplot {M P} _ _ _ _.

Section VisualizeUtils.

(** Scalars of the numeric arrays with the arithmetic numpy applies to
    them.  A map (one 2-D frame) is the list of its cells. *)
Variable F : Type.
Variable fzero : F.
Variable fadd : F -> F -> F.
Variable fmul : F -> F -> F.
Variable fdivn : F -> nat -> F.
Variable flt : F -> F -> bool.

(** [cv2.resize(frame, dsize=(224, 224))]. *)
Variable resize : list F -> list F.

(** Image tensors and what [tensor2img] makes of them. *)
Variables Tensor Img : Type.
Variable tensor2img : Tensor -> Img.

(** [gen_coloc_maps]: the encoders' inputs and outputs per example, and
    [steps.utils.matchmap_generate]. *)
Variables ImgIn CapIn ImgFeat CapFeat : Type.
Variable matchmap_generate : ImgFeat -> CapFeat -> list F.

Definition gen_coloc_maps (image_model : Model ImgIn ImgFeat)
    (caption_model : Model CapIn CapFeat)
    (image_tensor : list ImgIn) (caption_glove : list CapIn)
  : result (list (list F)) :=
  let image_op := forward image_model image_tensor in
  let caption_op := forward caption_model caption_glove in
  size ← match size_attr image_model with
         | Some f => Ok f
         | None => Raise AttributeError
         end;
  let batch_size := size 0 in
  Py.for_append
    (fun i =>
       a ← Py.getitem image_op i;
       b ← Py.getitem caption_op i;
       Ok (matchmap_generate a b))
    (Py.arange batch_size).

(** [coloc_map_processor]: resize every frame, then [np.stack] along a new
    first axis; [np.stack] of no arrays raises [ValueError]. *)
Definition np_stack (frames : list (list F)) : result (list (list F)) :=
  match frames with
  | [] => Raise ValueError
  | _ => Ok frames
  end.

Definition coloc_map_processor (coloc_map : list (list F))
  : result (list (list F)) :=
  np_stack (map resize coloc_map).

(** [np.array(rows)]: the rows must have one shape. *)
Definition np_array (rows : list (list F)) : result (list (list F)) :=
  match rows with
  | [] => Ok []
  | r :: rs =>
      if forallb (fun r' => Nat.eqb (length r') (length r)) rs
      then Ok rows
      else Raise ValueError
  end.

(** [a.mean(axis=0)]: the rows are added cell by cell, in order, and every
    cell is divided by the number of rows.  The empty array has mean
    [0.0 / 0] (numpy's nan), a scalar. *)
Definition mean_axis0 (rows : list (list F)) : list F :=
  match rows with
  | [] => [fdivn fzero 0]
  | r :: rs =>
      map (fun x => fdivn x (length rows)) (fold_left (zip_with fadd) rs r)
  end.

(** The inner loop of [caption_parser]: the tokens and the maps at the
    indices of one position group. *)
Fixpoint collect (tok_caption : list string) (coloc_maps : list (list F))
    (position : list Z) : result (list string * list (list F)) :=
  match position with
  | [] => Ok ([], [])
  | index :: rest =>
      w ← Py.getitem tok_caption index;
      m ← Py.getitem coloc_maps index;
      r ← collect tok_caption coloc_maps rest;
      Ok (w :: r.1, m :: r.2)
  end.

Fixpoint caption_parser (tok_caption : list string)
    (coloc_maps : list (list F)) (index_list : list (list Z))
  : result (list (list string) * list (list F)) :=
  match index_list with
  | [] => Ok ([], [])
  | position :: rest =>
      c ← collect tok_caption coloc_maps position;
      new_coloc_map ← np_array c.2;
      let new_map := mean_axis0 new_coloc_map in
      r ← caption_parser tok_caption coloc_maps rest;
      Ok (c.1 :: r.1, new_map :: r.2)
  end.

(** [flickr_element_processor]. *)
Definition flickr_element_processor
    (element : RawElement (list F) Tensor string) (parse_mode : string)
    (data : gmap string CaptionData)
  : result (Element (list F) Img (list (list string))) :=
  caption_data ← match data !! raw_caption element with
                 | Some d => Ok d
                 | None => Raise KeyError
                 end;
  let index_list := caption_index caption_data in
  let coloc_map := raw_coloc_map element in
  let actual_length :=
    if String.eqb parse_mode "phrase"
    then length (parsed_caption caption_data)
    else length (tok_sent caption_data) in
  let coloc_map := Py.del_from (actual_length + 1) coloc_map in
  coloc_map ← Py.del_first coloc_map;
  parsed ← (if negb (String.eqb parse_mode "phrase")
            then caption_parser (tok_sent caption_data) coloc_map index_list
            else Ok (parsed_caption caption_data, coloc_map));
  coloc_map ← coloc_map_processor parsed.2;
  Ok (mkElement coloc_map (tensor2img (raw_image element)) parsed.1
        (raw_name element)).

(** [coco_element_processor]. *)
Definition coco_element_processor
    (element : RawElement (list F) Tensor (list string))
  : result (Element (list F) Img (list string)) :=
  let caption := raw_caption element in
  let coloc_map := raw_coloc_map element in
  start ← Py.index caption "<end>";
  let caption := Py.del_from start caption in
  let coloc_map := Py.del_from start coloc_map in
  caption ← Py.del_first caption;
  coloc_map ← Py.del_first coloc_map;
  coloc_map ← coloc_map_processor coloc_map;
  Ok (mkElement coloc_map (tensor2img (raw_image element)) caption
        (raw_name element)).

(** [seg_viz].  [np.mean(mask)] adds all cells and divides by their number;
    [np.where(mask < cutoff, 0, 1)] tests every cell.  The figure is the
    list of its subplots; [color_img * mask2] is computed and not used. *)
Variable Phrase : Type.
Variable ColorImg : Type.
Variable apply_mask : ColorImg -> list Z -> ColorImg.

Definition np_mean (mask : list F) : F :=
  fdivn (fold_left fadd mask fzero) (length mask).

Definition np_where_lt (mask : list F) (cutoff : F) : list Z :=
  map (fun x => if flt x cutoff then 0 else 1) mask.

Definition seg_viz_body (mask_list : list (list F)) (caption : list Phrase)
    (color_img : ColorImg) (thresh : F) (id : Z)
  : result (Subplot (list F) Phrase) :=
  cap_phrase ← Py.getitem caption id;
  frame ← Py.getitem mask_list id;
  let mask := resize frame in
  let mask2 := np_where_lt mask (fmul thresh (np_mean mask)) in
  let img := apply_mask color_img mask2 in
  Ok (mkSubplot (id + 1) mask mask2 cap_phrase).

Definition seg_viz (mask_list : list (list F)) (caption : list Phrase)
    (color_img : ColorImg) (thresh : F)
  : result (list (Subplot (list F) Phrase)) :=
  ids ← Py.add (Py.Range (Z.of_nat (length mask_list))) (Py.Int 1);
  ids ← Py.iter ids;
  Py.for_append (seg_viz_body mask_list caption color_img thresh) ids.

End VisualizeUtils.

Arguments gen_coloc_maps {F ImgIn CapIn ImgFeat CapFeat} _ _ _ _ _.
Arguments coloc_map_processor {F} _ _.
Arguments np_array {F} _.
Arguments mean_axis0 {F} _ _ _ _.
Arguments collect {F} _ _ _.
Arguments caption_parser {F} _ _ _ _ _ _.
Arguments flickr_element_processor {F} _ _ _ _ {Tensor Img} _ _ _ _.
Arguments coco_element_processor {F} _ {Tensor Img} _ _.
Arguments np_mean {F} _ _ _ _.
Arguments np_where_lt {F} _ _ _.
Arguments seg_viz_body {F} _ _ _ _ _ _ {Phrase ColorImg} _ _ _ _ _ _.
Arguments seg_viz {F} _ _ _ _ _ _ {Phrase ColorImg} _ _ _ _ _.

(** ** [genome_processor.py]: [GenomeViz.loc_eval] *)

(** One progress line, [print(index, "--->", score, mean(score_list))]. *)
Record Progress : Type := mkProgress {
  pr_index : Z;
  pr_score : Z;
  pr_mean : Q
}.

(** The progress bar of [tqdm]: [bar_n] iterations done of [bar_total]. *)
Record Bar : Type := mkBar {
  bar_n : Z;
  bar_total : Z
}.

(** The fields of a [GenomeViz] object that [loc_eval] reads.  [dataset] is
    set by [__init__] only in evaluation mode, so reading it raises
    [AttributeError] otherwise; indexing it is [dataset.__getitem__]. *)
Record GenomeViz (Example : Type) : Type := mkGenomeViz {
  eval_mode : bool;
  parse_mode : string;
  dataset : option (Z -> result Example)
}.

Arguments mkGenomeViz {Example} _ _ _.
Arguments eval_mode {Example} _.
Arguments parse_mode {Example} _.
Arguments dataset {Example} _.

Section GenomeProcessor.

(** What [genome_utils] provides: the two map generators, the element
    processing ([fetch_data_genome] then [genome_element_processor]) and
    the hit score, converted by [int]. *)
Variables Example ColocMap Elem : Type.
Variable gen_coloc_maps_matchmap : Example -> result ColocMap.
Variable gen_coloc_maps_phrase : Example -> result ColocMap.
Variable genome_element : Example -> ColocMap -> result Elem.
Variable hit_score_genome : Elem -> result Z.

(** The body of the loop up to [score = int(hit_score_genome(element))]. *)
Definition score_example (self : GenomeViz Example) (index : Z) : result Z :=
  getitem ← match dataset self with
            | Some d => Ok d
            | None => Raise AttributeError
            end;
  example ← getitem index;
  coloc_map ← (if String.eqb (parse_mode self) "matchmap"
               then gen_coloc_maps_matchmap example
               else gen_coloc_maps_phrase example);
  element ← genome_element example coloc_map;
  hit_score_genome element.

(** The loop runs under [tqdm(np.arange(last))].  The state is the score
    list, what [print] has written, and the counter [n] of the bar: the
    number of iterations that have come to their end.  When an iteration
    raises, the loop stops with what was printed and counted so far. *)
Fixpoint loc_eval_loop (self : GenomeViz Example) (indices : list Z) (n : Z)
    (score_list : list Z) (printed : list Progress)
  : list Progress * Z * result (list Z) :=
  match indices with
  | [] => (printed, n, Ok score_list)
  | index :: rest =>
      match score_example self index with
      | Raise e => (printed, n, Raise e)
      | Ok score =>
          let score_list := (score_list ++ [score])%list in
          if index mod 100 =? 0 then
            match Py.mean score_list with
            | Raise e => (printed, n, Raise e)
            | Ok m =>
                loc_eval_loop self rest (n + 1) score_list
                  (printed ++ [mkProgress index score m])%list
            end
          else loc_eval_loop self rest (n + 1) score_list printed
      end
  end.

(** [loc_eval(last)]: what [print] has written, the bar as [tqdm] leaves it
    when its iterator is closed (at the end of the loop or when an exception
    leaves it: [n] of [total], written by [close]; the refreshes in between
    depend on the clock and are not part of this), and the returned pair or
    the exception that left the method. *)
Definition loc_eval (self : GenomeViz Example) (last : Z)
  : list Progress * Bar * result (list Z * Q) :=
  let indices := Py.arange last in
  let run := loc_eval_loop self indices 0 [] [] in
  (run.1.1, mkBar run.1.2 (Z.of_nat (length indices)),
   score_list ← run.2; m ← Py.mean score_list; Ok (score_list, m)).

End GenomeProcessor.

Arguments score_example {Example ColocMap Elem} _ _ _ _ _ _.
Arguments loc_eval_loop {Example ColocMap Elem} _ _ _ _ _ _ _ _ _.
Arguments loc_eval {Example ColocMap Elem} _ _ _ _ _ _.

(** ** [get_loader.py] *)

(** Keyword arguments of the three dataset constructors. *)
Record CocoArgs (T : Type) : Type := mkCocoArgs {
  coco_transform : T;
  coco_mode : string;
  coco_batch_size : Z;
  coco_annotations_file : string;
  coco_vocab_glove_file : string;
  coco_img_folder : string;
  coco_start_word : string;
  coco_end_word : string;
  coco_unk_word : string;
  coco_pad_caption : bool;
  coco_pad_limit : Z
}.

Record FlickrArgs (T : Type) : Type := mkFlickrArgs {
  flickr_transform : T;
  flickr_mode : string;
  flickr_batch_size : Z;
  flickr_sentences_file : string;
  flickr_sentences_root : string;
  flickr_annotations_root : string;
  flickr_image_root : string;
  flickr_vocab_glove_file : string;
  flickr_parse_mode : string;
  flickr_pad_caption : bool;
  flickr_start_word : string;
  flickr_end_word : string;
  flickr_unk_word : string;
  flickr_pad_limit : Z
}.

Record GenomeArgs (T : Type) : Type := mkGenomeArgs {
  genome_transform : T;
  genome_mode : string;
  genome_batch_size : Z;
  genome_annotations_file : string;
  genome_img_folder : string;
  genome_vocab_glove_file : string;
  genome_start_word : string;
  genome_end_word : string;
  genome_unk_word : string;
  genome_pad_caption : bool;
  genome_pad_limit : Z
}.

Arguments mkCocoArgs {T} _ _ _ _ _ _ _ _ _ _ _.
Arguments mkFlickrArgs {T} _ _ _ _ _ _ _ _ _ _ _ _ _ _.
Arguments mkGenomeArgs {T} _ _ _ _ _ _ _ _ _ _ _.
Arguments genome_mode {T} _.
Arguments genome_vocab_glove_file {T} _.

(** [data.sampler.BatchSampler(sampler=SubsetRandomSampler(indices),
    batch_size=..., drop_last=...)]. *)
Record BatchSampler : Type := mkBatchSampler {
  bs_indices : list Z;
  bs_batch_size : Z;
  bs_drop_last : bool
}.

(** [data.DataLoader]: the arguments the constructors pass, the others at
    the defaults of its signature
    ([batch_size=1, shuffle=False, batch_sampler=None, drop_last=False]). *)
Record DataLoader (D : Type) : Type := mkDataLoader {
  dl_dataset : D;
  dl_batch_size : Z;
  dl_shuffle : bool;
  dl_batch_sampler : option BatchSampler;
  dl_num_workers : Z;
  dl_drop_last : bool
}.

Arguments mkDataLoader {D} _ _ _ _ _ _.
Arguments dl_dataset {D} _.
Arguments dl_batch_size {D} _.
Arguments dl_shuffle {D} _.
Arguments dl_batch_sampler {D} _.
Arguments dl_num_workers {D} _.
Arguments dl_drop_last {D} _.

Definition default_batch_size : Z := 1.
Definition default_shuffle : bool := false.
Definition default_drop_last : bool := false.

(** Whether the batches of a loader leave out a short final batch: with a
    batch sampler the sampler decides, otherwise the loader's own flag. *)
Definition drops_short_final_batch {D : Type} (dl : DataLoader D) : bool :=
  match dl_batch_sampler dl with
  | Some bs => bs_drop_last bs
  | None => dl_drop_last dl
  end.

(** [BatchSampler(sampler, batch_size, drop_last)] of torch: [ValueError]
    unless the batch size is a positive integer. *)
Definition BatchSampler_new (indices : list Z) (batch_size : Z)
    (drop_last : bool) : result BatchSampler :=
  if batch_size <=? 0 then Raise ValueError
  else Ok (mkBatchSampler indices batch_size drop_last).

(** [DataLoader(dataset, batch_size, shuffle, batch_sampler, num_workers,
    drop_last)] of torch, with [len] the length of the dataset.  It raises
    [ValueError] for a negative number of workers; with a batch sampler, for
    any of [batch_size], [shuffle], [drop_last] off its default; without
    one, for an empty dataset to shuffle ([RandomSampler]) and for a batch
    size that is not positive (the [BatchSampler] it builds). *)
Definition DataLoader_new {D : Type} (len : Z) (dataset : D) (batch_size : Z)
    (shuffle : bool) (batch_sampler : option BatchSampler) (num_workers : Z)
    (drop_last : bool) : result (DataLoader D) :=
  if num_workers <? 0 then Raise ValueError else
  match batch_sampler with
  | Some _ =>
      if negb (batch_size =? 1) || shuffle || drop_last then Raise ValueError
      else Ok (mkDataLoader dataset batch_size shuffle batch_sampler
                 num_workers drop_last)
  | None =>
      if shuffle && (len <=? 0) then Raise ValueError
      else if batch_size <=? 0 then Raise ValueError
      else Ok (mkDataLoader dataset batch_size shuffle batch_sampler
                 num_workers drop_last)
  end.

Definition valid_mode (mode : string) : bool :=
  String.eqb mode "train" || String.eqb mode "val" || String.eqb mode "test".

(** A local name bound in some branches only: reading it unbound raises
    [UnboundLocalError]. *)
Definition read_local {A : Type} (v : option A) : result A :=
  match v with
  | Some a => Ok a
  | None => Raise UnboundLocalError
  end.

Section GetLoader.

(** The dataset classes of [coco_loader], [flickr_loader] and
    [genome_loader], and the members of a dataset object the constructors
    use. *)
Variables Transform Dataset : Type.
Variable COCODataset : CocoArgs Transform -> Dataset.
Variable FlickrDataset : FlickrArgs Transform -> Dataset.
Variable VisualGenome : GenomeArgs Transform -> Dataset.
Variable pad_caption_of : Dataset -> bool.
Variable batch_size_of : Dataset -> Z.
Variable get_indices : Dataset -> list Z.
Variable len_of : Dataset -> Z.

(** The tail shared by the three constructors, from [if dataset.pad_caption]
    on. *)
Definition make_loader (dataset : Dataset) (num_workers : Z)
  : result (DataLoader Dataset) :=
  if pad_caption_of dataset then
    let indices := get_indices dataset in
    batch_sampler ← BatchSampler_new indices (batch_size_of dataset) false;
    DataLoader_new (len_of dataset) dataset default_batch_size default_shuffle
      (Some batch_sampler) num_workers default_drop_last
  else
    DataLoader_new (len_of dataset) dataset (batch_size_of dataset) true None
      num_workers default_drop_last.

(** The arguments torch takes without raising: a number of workers that is
    not negative, a positive batch size and, where the loader shuffles the
    dataset itself, a dataset that is not empty. *)
Definition torch_accepts (dataset : Dataset) (num_workers : Z) : Prop :=
  0 <= num_workers /\ 0 < batch_size_of dataset /\
  (pad_caption_of dataset = false -> 0 < len_of dataset).

Definition get_loader_coco (transform : Transform) (mode : string)
    (batch_size : Z) (start_word end_word unk_word : string)
    (num_workers : Z) (cocoapi_loc vocab_glove_file : string)
    (test_size : Z) (pad_caption : bool)
  : result (DataLoader Dataset) :=
  if negb (valid_mode mode) then Raise AssertionError else
  let folders : option (string * string) := None in
  let folders :=
    if String.eqb mode "train" then
      Some (Py.path_join cocoapi_loc ["data/mscoco/images/train2014/"],
            Py.path_join cocoapi_loc
              ["data/mscoco/annotations/captions_train2014.json"])
    else folders in
  let folders :=
    if String.eqb mode "val" then
      Some (Py.path_join cocoapi_loc ["data/mscoco/images/val2014/"],
            Py.path_join cocoapi_loc
              ["data/mscoco/annotations/captions_val2014.json"])
    else folders in
  folders ← (if String.eqb mode "test" then
               if negb (batch_size =? 1) then Raise AssertionError else
               Ok (Some (Py.path_join cocoapi_loc
                           ["data/mscoco/images/test2014/"],
                         Py.path_join cocoapi_loc
                           ["data/mscoco/annotations/image_info_test2014.json"]))
             else Ok folders);
  f ← read_local folders;
  let dataset :=
    COCODataset (mkCocoArgs transform mode batch_size f.2 vocab_glove_file
                   f.1 start_word end_word unk_word true 20) in
  make_loader dataset num_workers.

Definition flickr_folders (flickr_loc image_root sentences_root
    annotations_root split : string) : string * string * string * string :=
  let img_folder := Py.path_join flickr_loc [image_root; split] in
  let annotations_folder := Py.path_join flickr_loc [annotations_root; split] in
  let sentences_folder := Py.path_join flickr_loc [sentences_root; split] in
  let sentences_file := Py.path_join sentences_folder ["data.json"] in
  (img_folder, annotations_folder, sentences_folder, sentences_file).

Definition get_loader_flickr (transform : Transform) (mode : string)
    (batch_size : Z) (start_word end_word unk_word : string)
    (num_workers : Z) (flickr_loc vocab_glove_file : string)
    (pad_caption : bool) (pad_limit : Z) (parse_mode : string)
  : result (DataLoader Dataset) :=
  let image_root :=
    Py.path_join flickr_loc
      ["data"; "flickr_30kentities"; "flickr30k-images"] in
  let sentences_root :=
    Py.path_join flickr_loc
      ["data"; "flickr_30kentities"; "annotations_flickr"; "Sentences"] in
  let annotations_root :=
    Py.path_join flickr_loc
      ["data"; "flickr_30kentities"; "annotations_flickr"; "Annotations"] in
  if negb (valid_mode mode) then Raise AssertionError else
  let folders : option (string * string * string * string) := None in
  let folders :=
    if String.eqb mode "train" then
      Some (flickr_folders flickr_loc image_root sentences_root
              annotations_root "train")
    else folders in
  let folders :=
    if String.eqb mode "val" then
      Some (flickr_folders flickr_loc image_root sentences_root
              annotations_root "val")
    else folders in
  let folders :=
    if String.eqb mode "test" then
      Some (flickr_folders flickr_loc image_root sentences_root
              annotations_root "test")
    else folders in
  f ← read_local folders;
  let '(img_folder, annotations_folder, sentences_folder, sentences_file) := f in
  let dataset :=
    FlickrDataset (mkFlickrArgs transform mode batch_size sentences_file
                     sentences_folder annotations_folder img_folder
                     vocab_glove_file parse_mode pad_caption start_word
                     end_word unk_word pad_limit) in
  make_loader dataset num_workers.

Definition get_loader_genome (transform : Transform) (mode : string)
    (batch_size : Z) (start_word end_word unk_word : string)
    (num_workers : Z) (genome_loc vocab_glove_file : string)
    (pad_caption : bool) (pad_limit : Z) : result (DataLoader Dataset) :=
  let image_root :=
    Py.path_join genome_loc ["data"; "visual_genome"; "images"] in
  let annotations_file :=
    Py.path_join genome_loc ["data"; "visual_genome"; "coco_phrase_data.json"] in
  let vocab_glove_file :=
    Py.path_join genome_loc ["data"; "visual_genome"; "vocab_glove.json"] in
  let dataset :=
    VisualGenome (mkGenomeArgs transform "train" batch_size annotations_file
                    image_root vocab_glove_file start_word end_word unk_word
                    pad_caption pad_limit) in
  make_loader dataset num_workers.

End GetLoader.

Arguments make_loader {Dataset} _ _ _ _ _ _.
Arguments torch_accepts {Dataset} _ _ _ _ _.
Arguments get_loader_coco {Transform Dataset} _ _ _ _ _ _ _ _ _ _ _ _ _ _ _ _.
Arguments get_loader_flickr {Transform Dataset} _ _ _ _ _ _ _ _ _ _ _ _ _ _ _ _ _.
Arguments get_loader_genome {Transform Dataset} _ _ _ _ _ _ _ _ _ _ _ _ _ _ _ _.

(** ** What the specification says of phrase aggregation

    A phrase caption is the ordered list of the tokens at the positions of
    its group; a phrase map holds, cell by cell, the arithmetic mean of the
    token maps at those positions. *)

Section PhraseSpec.

Variable F : Type.
Variable fadd : F -> F -> F.
Variable fdivn : F -> nat -> F.

Definition valid_position (tok_caption : list string)
    (coloc_maps : list (list F)) (i : Z) : Prop :=
  0 <= i < Z.of_nat (length tok_caption) /\ i < Z.of_nat (length coloc_maps).

Definition valid_groups (tok_caption : list string)
    (coloc_maps : list (list F)) (index_list : list (list Z)) : Prop :=
  Forall (Forall (valid_position tok_caption coloc_maps)) index_list.

Definition uniform_shape (n : nat) (coloc_maps : list (list F)) : Prop :=
  Forall (fun m => length m = n) coloc_maps.

Definition arithmetic_mean (xs : list F) : option F :=
  match xs with
  | [] => None
  | x :: xs' => Some (fdivn (fold_left fadd xs' x) (length xs))
  end.

Definition tokens_at (tok_caption : list string) (group : list Z)
    (phrase : list string) : Prop :=
  Forall2 (fun i w => tok_caption !! Z.to_nat i = Some w) group phrase.

Definition cells_at (coloc_maps : list (list F)) (group : list Z) (j : nat)
    (cells : list F) : Prop :=
  Forall2 (fun i c => exists m, coloc_maps !! Z.to_nat i = Some m /\ m !! j = Some c)
    group cells.

Definition elementwise_mean (n : nat) (coloc_maps : list (list F))
    (group : list Z) (phrase_map : list F) : Prop :=
  length phrase_map = n /\
  forall j, (j < n)%nat ->
    exists cells, cells_at coloc_maps group j cells /\
                  phrase_map !! j = arithmetic_mean cells.

End PhraseSpec.

Arguments valid_position {F} _ _ _.
Arguments valid_groups {F} _ _ _.
Arguments uniform_shape {F} _ _.
Arguments arithmetic_mean {F} _ _ _.
Arguments cells_at {F} _ _ _ _.
Arguments elementwise_mean {F} _ _ _ _ _ _.

(** ** What the specification says of an aborted evaluation run *)

Section AbortSpec.

Variables Example ColocMap Elem : Type.
Variable gen_coloc_maps_matchmap : Example -> result ColocMap.
Variable gen_coloc_maps_phrase : Example -> result ColocMap.
Variable genome_element : Example -> ColocMap -> result Elem.
Variable hit_score_genome : Elem -> result Z.

(** The run over [last] examples scores the examples [0 .. k-1] and is
    aborted by [e], raised while example [k] is processed. *)
Definition aborted_after (self : GenomeViz Example) (last k : Z) (e : PyExc)
  : Prop :=
  0 <= k < last /\
  (forall i, 0 <= i < k ->
     returns (score_example gen_coloc_maps_matchmap gen_coloc_maps_phrase
                genome_element hit_score_genome self i)) /\
  score_example gen_coloc_maps_matchmap gen_coloc_maps_phrase genome_element
    hit_score_genome self k = Raise e.

End AbortSpec.

Arguments aborted_after {Example ColocMap Elem} _ _ _ _ _ _ _ _.

(** ** Concrete collaborators, for running the definitions *)

Module Sample.

(** Exact rational arithmetic for the cells. *)
Definition qdivn (x : Q) (n : nat) : Q := Qred (x / inject_Z (Z.of_nat n)).
Definition qadd (x y : Q) : Q := Qred (x + y).
Definition qmul (x y : Q) : Q := Qred (x * y).
Definition qlt (x y : Q) : bool := negb (Qle_bool y x).

(** A resize that keeps the frame, a trivial image conversion. *)
Definition keep (frame : list Q) : list Q := frame.
Definition to_img (t : unit) : unit := t.

(** A model as [get_models] loads it: a module that maps a batch to a batch
    of features and has no attribute [size]. *)
Definition module : Model Z Z := mkModel (fun batch => batch) None.

(** An object that does answer [size(0)], with 1. *)
Definition sized_module : Model Z Z := mkModel (fun batch => batch) (Some (fun _ => 1)).

Definition matchmap (a b : Z) : list Q := [inject_Z a; inject_Z b].

(** A colour image whose masking is not looked at. *)
Definition mask_image (color_img : unit) (mask2 : list Z) : unit := color_img.

(** An evaluation object whose dataset has no example at index [bad], and
    whose every other example scores 1. *)
Definition viz_failing_at (bad : Z) : GenomeViz Z :=
  mkGenomeViz true "matchmap"
    (Some (fun i => if i =? bad then Raise KeyError else Ok i)).

Definition gen_map (example : Z) : result Z := Ok example.
Definition element_of (example coloc_map : Z) : result Z := Ok example.
Definition hit (element : Z) : result Z := Ok 1.

(** Dataset objects that record their constructor arguments. *)
Inductive dataset : Type :=
| Coco (a : CocoArgs unit)
| Flickr (a : FlickrArgs unit)
| Genome (a : GenomeArgs unit).

Definition pad_caption_of (d : dataset) : bool :=
  match d with
  | Coco a => coco_pad_caption unit a
  | Flickr a => flickr_pad_caption unit a
  | Genome a => genome_pad_caption unit a
  end.

Definition batch_size_of (d : dataset) : Z :=
  match d with
  | Coco a => coco_batch_size unit a
  | Flickr a => flickr_batch_size unit a
  | Genome a => genome_batch_size unit a
  end.

Definition get_indices (d : dataset) : list Z := [0; 1; 2].

Definition len_of (d : dataset) : Z := 3.

End Sample.

(** ** The rest of [visualize_utils.py] and [genome_processor.py] *)

Module PyText.

(** [str(i)] for an integer: its decimal digits, with a minus sign. *)
Definition str (i : Z) : string := pretty i.

(** [sep.join(l)] for a list of strings. *)
Fixpoint join (sep : string) (l : list string) : string :=
  match l with
  | [] => ""
  | x :: l' =>
      match l' with
      | [] => x
      | _ => String.append x (String.append sep (join sep l'))
      end
  end.

(** What [list2string] may be handed: a string or a list of strings. *)
Inductive obj : Set :=
| Str (s : string)
| List (l : list string).

(** [s + t] on strings. *)
Definition concat (s t : string) : string := String.append s t.

End PyText.

(** [fetch_data]. *)
Definition fetch_data {M T C : Type} (index : Z) (coloc_maps : list (list M))
    (image_tensor : list T) (captions : list C) : result (RawElement M T C) :=
  coloc_map ← Py.getitem coloc_maps index;
  image ← Py.getitem image_tensor index;
  caption ← Py.getitem captions index;
  Ok (mkRaw coloc_map image caption (PyText.str index)).

(** [list2string]: the assertion on the type, then the join. *)
Definition list2string (query_list : PyText.obj) : result string :=
  match query_list with
  | PyText.List l => Ok (PyText.join " " l)
  | PyText.Str _ => Raise AssertionError
  end.

(** [phrase_detokenizer]. *)
Definition phrase_detokenizer (caption : list PyText.obj)
  : result (list string) :=
  Py.for_append list2string caption.

(** The figure [mask_viz] draws: a grid of [rows] by [columns], the subplots
    added to it, and the file it is saved to, if it is. *)
Record MaskPlot (M B P : Type) : Type := mkMaskPlot {
  mp_position : Z;
  mp_background : B;
  mp_mask : M;
  mp_title : P
}.

Record Figure (M B P : Type) : Type := mkFigure {
  fig_rows : Z;
  fig_columns : Z;
  fig_plots : list (MaskPlot M B P);
  fig_saved : option string
}.

Arguments mkMaskPlot {M B P} _ _ _ _.
Arguments mp_position {M B P} _.
Arguments mp_background {M B P} _.
Arguments mp_mask {M B P} _.
Arguments mp_title {M B P} _.
Arguments mkFigure {M B P} _ _ _ _.
Arguments fig_rows {M B P} _.
Arguments fig_columns {M B P} _.
Arguments fig_plots {M B P} _.
Arguments fig_saved {M B P} _.

Section MaskViz.

Variables F BwImg Phrase : Type.
Variable resize : list F -> list F.

Definition mask_viz_body (mask_list : list (list F)) (caption : list Phrase)
    (bw_img : BwImg) (id : Z) : result (MaskPlot (list F) BwImg Phrase) :=
  cap_phrase ← Py.getitem caption id;
  frame ← Py.getitem mask_list id;
  let mask := resize frame in
  Ok (mkMaskPlot (id + 1) bw_img mask cap_phrase).

(** [mask_viz]: the figure that is shown, or the exception of the loop. *)
Definition mask_viz (mask_list : list (list F)) (caption : list Phrase)
    (bw_img : BwImg) (save_flag : bool) (save_name : string)
  : result (Figure (list F) BwImg Phrase) :=
  let columns := Z.of_nat (length mask_list) + 1 in
  let rows := 1 in
  plots ← Py.for_append (mask_viz_body mask_list caption bw_img)
             (Py.arange (Z.of_nat (length mask_list)));
  Ok (mkFigure rows columns plots
        (if save_flag then Some save_name else None)).

End MaskViz.

Arguments mask_viz_body {F BwImg Phrase} _ _ _ _ _.
Arguments mask_viz {F BwImg Phrase} _ _ _ _ _ _.

(** [GenomeViz.__init__] as far as [loc_eval] and [__getitem__] see it:
    [self.dataset] is set in evaluation mode only. *)
Definition GenomeViz_init {Example : Type} (loader_dataset : Z -> result Example)
    (eval_mode : bool) (parse_mode : string) : GenomeViz Example :=
  mkGenomeViz eval_mode parse_mode
    (if eval_mode then Some loader_dataset else None).

(** The attributes [__getitem__] assigns and [__call__] reads; [None]: the
    attribute has not been assigned. *)
Record VizState (Elem Score : Type) : Type := mkVizState {
  st_element : option Elem;
  st_score : option Score
}.

Arguments mkVizState {Elem Score} _ _.
Arguments st_element {Elem Score} _.
Arguments st_score {Elem Score} _.

(** What [__call__] hands to the rendering functions of [genome_utils]. *)
Inductive Render (Elem Thresh : Type) : Type :=
| SegVizGenome (element : Elem) (thresh : Thresh) (save_flag : bool)
    (name : string)
| MaskVizGenome (element : Elem) (save_flag : bool) (name : string).

Arguments SegVizGenome {Elem Thresh} _ _ _ _.
Arguments MaskVizGenome {Elem Thresh} _ _ _.

Section GenomeVizObject.

(** [fetch_data_genome] on the batch of the object, then
    [genome_element_processor] and [hit_score_genome], all of
    [genome_utils]; [caption_id] reads [element['caption_id']]. *)
Variables Raw Elem Score Thresh : Type.
Variable fetch_data_genome : Z -> result Raw.
Variable genome_element_processor : Raw -> result Elem.
Variable hit_score_genome : Elem -> result Score.
Variable caption_id : Elem -> string.

(** [__getitem__]: the state after the call and what the call gives. *)
Definition GenomeViz_getitem (eval_mode : bool) (st : VizState Elem Score)
    (index : Z) : VizState Elem Score * result (Elem * Score) :=
  if eval_mode then (st, Raise AssertionError) else
  match fetch_data_genome index with
  | Raise e => (st, Raise e)
  | Ok raw_element =>
      match genome_element_processor raw_element with
      | Raise e => (st, Raise e)
      | Ok element =>
          let st := mkVizState (Some element) (st_score st) in
          match hit_score_genome element with
          | Raise e => (st, Raise e)
          | Ok score =>
              (mkVizState (Some element) (Some score), Ok (element, score))
          end
      end
  end.

(** [__call__]: what was rendered, if anything, and the score printed or
    the exception. *)
Definition GenomeViz_call (st : VizState Elem Score) (save_flag seg_flag : bool)
    (thresh : Thresh) (name : string)
  : option (Render Elem Thresh) * result Score :=
  match st_element st with
  | None => (None, Raise AttributeError)
  | Some element =>
      let name := PyText.concat (caption_id element) ".png" in
      let rendered :=
        if seg_flag then SegVizGenome element thresh save_flag name
        else MaskVizGenome element save_flag name in
      (Some rendered,
       match st_score st with
       | Some score => Ok score
       | None => Raise AttributeError
       end)
  end.

End GenomeVizObject.

Arguments GenomeViz_getitem {Raw Elem Score} _ _ _ _ _ _.
Arguments GenomeViz_call {Elem Score Thresh} _ _ _ _ _ _.

(** Indexing in range, as Python counts it. *)
Definition in_range {A : Type} (l : list A) (i : Z) : Prop :=
  - Z.of_nat (length l) <= i < Z.of_nat (length l).

(** The position a Python index stands for. *)
Definition position_of {A : Type} (l : list A) (i : Z) : nat :=
  Z.to_nat (if i <? 0 then i + Z.of_nat (length l) else i).

(** The indices of one group are in range for the caption and the maps. *)
Definition positions_in_range {F : Type} (tok_caption : list string)
    (coloc_maps : list (list F)) (position : list Z) : Prop :=
  Forall (fun i => in_range tok_caption i /\ in_range coloc_maps i) position.

(** A string without a blank. *)
Fixpoint no_space (s : string) : Prop :=
  match s with
  | EmptyString => True
  | String c s' => c <> " "%char /\ no_space s'
  end.

(** A path made ready to take a relative component: as it is when empty or
    ended by the separator, with the separator added otherwise. *)
Definition with_sep (path : string) : string :=
  if String.eqb path "" || Py.ends_with_sep path then path
  else String.append path "/".

(** A relative, non-empty path. *)
Definition relative (path : string) : Prop :=
  path <> "" /\ Py.starts_with_sep path = false.

(** * Properties *)

(** ** Python primitives *)

Lemma index_from_absent (x : string) (l : list string) (k : nat) :
  x ∉ l -> Py.index_from x l k = Raise ValueError.
Proof.
  revert k. induction l as [|y l IH]; intros k Hx; simpl; [reflexivity|].
  apply not_elem_of_cons in Hx as [Hne Hx].
  destruct (String.eqb_spec y x) as [->|_]; [contradiction|].
  apply IH, Hx.
Qed.

Lemma index_absent (l : list string) (x : string) :
  x ∉ l -> Py.index l x = Raise ValueError.
Proof. apply index_from_absent. Qed.

Lemma getitem_valid {A : Type} (l : list A) (i : Z) :
  0 <= i < Z.of_nat (length l) ->
  exists x, Py.getitem l i = Ok x /\ l !! Z.to_nat i = Some x.
Proof.
  intros Hi. unfold Py.getitem.
  destruct (Z.ltb_spec i 0) as [?|_]; [lia|].
  destruct (Z.leb_spec 0 i) as [_|?]; [|lia].
  destruct (Z.ltb_spec i (Z.of_nat (length l))) as [_|?]; [|lia].
  simpl. destruct (l !! Z.to_nat i) as [x|] eqn:Hl; [eauto|].
  apply lookup_ge_None in Hl. lia.
Qed.

Lemma arange_split (last k : Z) :
  0 <= k < last -> exists post, Py.arange last = (Py.arange k ++ k :: post)%list.
Proof.
  intros Hk. unfold Py.arange.
  replace (Z.to_nat last) with (Z.to_nat k + S (Z.to_nat last - S (Z.to_nat k)))%nat by lia.
  rewrite seq_app, map_app. simpl.
  rewrite Z2Nat.id by lia. eauto.
Qed.

Lemma elem_of_arange (n i : Z) : i ∈ Py.arange n <-> 0 <= i < n.
Proof.
  unfold Py.arange. rewrite list_elem_of_fmap. split.
  - intros (j & -> & Hj). apply elem_of_seq in Hj. lia.
  - intros Hi. exists (Z.to_nat i). split; [lia|]. apply elem_of_seq. lia.
Qed.

Lemma mean_snoc (data : list Z) (x : Z) :
  exists m, Py.mean (data ++ [x]) = Ok m.
Proof. destruct data; simpl; eauto. Qed.

(** A string that differs from every item of an explicit list is not in it. *)
Ltac absent_from_list :=
  let H := fresh in
  intros H;
  repeat (apply elem_of_cons in H as [H|H]; [discriminate H|]);
  exact (proj1 (elem_of_nil _) H).

(** ** Clipping ([coco_element_processor], [flickr_element_processor]) *)

Section Clip.

Context {F Tensor Img : Type}.
Variable resize : list F -> list F.
Variable tensor2img : Tensor -> Img.
Variables fzero : F.
Variables (fadd : F -> F -> F) (fdivn : F -> nat -> F).

(** With the end sentinel first met at position [k], both lists are cut at
    [k] and lose their position 0. *)
Lemma coco_element_processor_clips
    (element : RawElement (list F) Tensor (list string)) (k : nat) :
  Py.index (raw_caption element) "<end>" = Ok k ->
  drop 1 (take k (raw_caption element)) <> [] ->
  drop 1 (take k (raw_coloc_map element)) <> [] ->
  coco_element_processor resize tensor2img element =
  Ok (mkElement (map resize (drop 1 (take k (raw_coloc_map element))))
        (tensor2img (raw_image element))
        (drop 1 (take k (raw_caption element))) (raw_name element)).
Proof.
  intros Hk Hc Hm. unfold coco_element_processor. rewrite Hk. simpl.
  unfold Py.del_from.
  destruct (take k (raw_caption element)) as [|c cs]; [done|].
  destruct (take k (raw_coloc_map element)) as [|m ms]; [done|].
  simpl in *. unfold coloc_map_processor, np_stack.
  destruct ms as [|m' ms]; [done|]. reflexivity.
Qed.

(** C3: on the caption [<start> a dog runs <end>] with one map per position,
    [coco_element_processor] cuts at the end sentinel and drops position 0:
    the caption becomes [a dog runs] and three (resized) maps remain, those
    of positions 1, 2 and 3. *)
Theorem coco_clip_a_dog_runs (m0 m1 m2 m3 m4 : list F) (img : Tensor)
    (nm : string) :
  coco_element_processor resize tensor2img
    (mkRaw [m0; m1; m2; m3; m4] img ["<start>"; "a"; "dog"; "runs"; "<end>"] nm)
  = Ok (mkElement [resize m1; resize m2; resize m3] (tensor2img img)
          ["a"; "dog"; "runs"] nm).
Proof. reflexivity. Qed.

(** The same caption with four maps only (none for the end sentinel): the
    cut at position 4 removes no map, and the same three maps remain. *)
Example coco_clip_four_maps (m0 m1 m2 m3 : list F) (img : Tensor)
    (nm : string) :
  coco_element_processor resize tensor2img
    (mkRaw [m0; m1; m2; m3] img ["<start>"; "a"; "dog"; "runs"; "<end>"] nm)
  = Ok (mkElement [resize m1; resize m2; resize m3] (tensor2img img)
          ["a"; "dog"; "runs"] nm).
Proof. reflexivity. Qed.

(** C2, as the code has it: a caption without the end sentinel makes
    [coco_element_processor] raise [ValueError] (from [caption.index]);
    [flickr_element_processor] looks for no sentinel: in phrase mode, for a
    known caption id, it keeps the stored caption and the maps at positions
    [1 .. len(caption)], provided there is one. *)
Theorem clip_without_end_sentinel :
  (forall element : RawElement (list F) Tensor (list string),
     "<end>" ∉ raw_caption element ->
     coco_element_processor resize tensor2img element = Raise ValueError) /\
  (forall (element : RawElement (list F) Tensor string)
          (data : gmap string CaptionData) (cd : CaptionData),
     data !! raw_caption element = Some cd ->
     take (length (parsed_caption cd)) (drop 1 (raw_coloc_map element)) <> [] ->
     flickr_element_processor fzero fadd fdivn resize tensor2img element
       "phrase" data =
     Ok (mkElement
           (map resize (take (length (parsed_caption cd))
                          (drop 1 (raw_coloc_map element))))
           (tensor2img (raw_image element)) (parsed_caption cd)
           (raw_name element))).
Proof.
  split.
  - intros element Hend. unfold coco_element_processor.
    rewrite (index_absent _ _ Hend). reflexivity.
  - intros element data cd Hcd Hkept. unfold flickr_element_processor.
    rewrite Hcd. simpl. unfold Py.del_from.
    replace (length (parsed_caption cd) + 1)%nat
      with (S (length (parsed_caption cd))) by lia.
    destruct (raw_coloc_map element) as [|m ms]; simpl in *.
    + rewrite take_nil in Hkept. done.
    + rewrite drop_0 in *. unfold coloc_map_processor, np_stack.
      destruct (take (length (parsed_caption cd)) ms) as [|m' ms']; [done|].
      reflexivity.
Qed.

End Clip.

(** C2 (witness). *)
Lemma clip_without_end_sentinel_witness :
  coco_element_processor Sample.keep Sample.to_img
    (mkRaw [[1%Q]; [2%Q]; [3%Q]] tt ["<start>"; "a"; "dog"] "0")
  = Raise ValueError /\
  flickr_element_processor 0%Q Sample.qadd Sample.qdivn Sample.keep
    Sample.to_img (mkRaw [[1%Q]; [2%Q]; [3%Q]; [4%Q]] tt "17" "0") "phrase"
    {[ "17" := mkCaptionData [[0]; [1]] [["a"]; ["dog"]] ["a"; "dog"] ]}
  = Ok (mkElement [[2%Q]; [3%Q]] tt [["a"]; ["dog"]] "0").
Proof.
  pose proof (clip_without_end_sentinel Sample.keep Sample.to_img 0%Q
                Sample.qadd Sample.qdivn) as [Hcoco Hflickr].
  split.
  - apply Hcoco. simpl. absent_from_list.
  - apply (Hflickr (mkRaw [[1%Q]; [2%Q]; [3%Q]; [4%Q]] tt "17" "0")
             {[ "17" := mkCaptionData [[0]; [1]] [["a"]; ["dog"]] ["a"; "dog"] ]}
             (mkCaptionData [[0]; [1]] [["a"]; ["dog"]] ["a"; "dog"])).
    + apply lookup_singleton_eq.
    + simpl. discriminate.
Defined.

(** C2 (counterexample): the caption [<start> a dog] holds no end sentinel,
    and [coco_element_processor] does not return on it. *)
Lemma coco_clip_without_end_raises :
  ("<end>" ∉ ["<start>"; "a"; "dog"]) /\
  ~ returns (coco_element_processor Sample.keep Sample.to_img
               (mkRaw [[1%Q]; [2%Q]; [3%Q]] tt ["<start>"; "a"; "dog"] "0")).
Proof.
  split.
  - absent_from_list.
  - simpl. tauto.
Qed.

(** ** Phrase aggregation ([caption_parser]) *)

Section Aggregate.

Context {F : Type}.
Variable fzero : F.
Variables (fadd : F -> F -> F) (fdivn : F -> nat -> F).

Lemma collect_valid (tok_caption : list string) (coloc_maps : list (list F))
    (position : list Z) :
  Forall (valid_position tok_caption coloc_maps) position ->
  exists ws ms,
    collect tok_caption coloc_maps position = Ok (ws, ms) /\
    tokens_at tok_caption position ws /\
    Forall2 (fun i m => coloc_maps !! Z.to_nat i = Some m) position ms.
Proof.
  induction 1 as [|i position [Hi1 Hi2] _ IH]; simpl.
  - exists [], []. repeat split; constructor.
  - destruct IH as (ws & ms & -> & Hws & Hms).
    destruct (getitem_valid tok_caption i) as (w & -> & Hw); [lia|].
    destruct (getitem_valid coloc_maps i) as (m & -> & Hm); [lia|].
    exists (w :: ws), (m :: ms). simpl.
    repeat split; constructor; assumption.
Qed.

Lemma np_array_uniform (n : nat) (rows : list (list F)) :
  uniform_shape n rows -> np_array rows = Ok rows.
Proof.
  intros Hrows. destruct rows as [|r rs]; [reflexivity|]. simpl.
  apply Forall_cons in Hrows as [Hr Hrs].
  replace (forallb (fun r' => Nat.eqb (length r') (length r)) rs) with true;
    [reflexivity|].
  symmetry. apply forallb_forall. intros r' Hin.
  apply Nat.eqb_eq. rewrite Hr.
  rewrite Forall_forall in Hrs. apply Hrs, list_elem_of_In, Hin.
Qed.

Lemma selected_uniform (n : nat) (coloc_maps ms : list (list F))
    (position : list Z) :
  uniform_shape n coloc_maps ->
  Forall2 (fun i m => coloc_maps !! Z.to_nat i = Some m) position ms ->
  uniform_shape n ms.
Proof.
  intros Hn. induction 1 as [|i m position ms Hm _ IH]; constructor; [|exact IH].
  exact (Forall_lookup_1 _ _ _ _ Hn Hm).
Qed.

Lemma fold_zip_length (n : nat) (rs : list (list F)) (r : list F) :
  length r = n -> uniform_shape n rs ->
  length (fold_left (zip_with fadd) rs r) = n.
Proof.
  revert r. induction rs as [|a rs IH]; intros r Hr Hrs; simpl; [exact Hr|].
  apply Forall_cons in Hrs as [Ha Hrs]. apply IH; [|exact Hrs].
  rewrite length_zip_with. lia.
Qed.

Lemma fold_zip_cell (rs : list (list F)) (r : list F) (j : nat)
    (cells : list F) (c : F) :
  r !! j = Some c ->
  Forall2 (fun m x => m !! j = Some x) rs cells ->
  fold_left (zip_with fadd) rs r !! j = Some (fold_left fadd cells c).
Proof.
  intros Hr Hcells. revert r c Hr.
  induction Hcells as [|a x rs cells Ha _ IH]; intros r c Hr; simpl; [exact Hr|].
  apply IH. rewrite lookup_zip_with, Hr. simpl. rewrite Ha. reflexivity.
Qed.

Lemma column_exists (n j : nat) (coloc_maps ms : list (list F))
    (position : list Z) :
  (j < n)%nat -> uniform_shape n coloc_maps ->
  Forall2 (fun i m => coloc_maps !! Z.to_nat i = Some m) position ms ->
  exists cells, cells_at coloc_maps position j cells /\
                Forall2 (fun m x => m !! j = Some x) ms cells.
Proof.
  intros Hj Hn. induction 1 as [|i m position ms Hm _ IH].
  - exists []. split; constructor.
  - destruct IH as (cells & Hc1 & Hc2).
    pose proof (Forall_lookup_1 _ _ _ _ Hn Hm) as Hlen. simpl in Hlen.
    destruct (lookup_lt_is_Some_2 m j) as [c Hc]; [lia|].
    exists (c :: cells). split; constructor; eauto.
Qed.

(** The mean along axis 0 of the maps picked by a non-empty group is their
    elementwise arithmetic mean. *)
Lemma mean_axis0_elementwise (n : nat) (coloc_maps ms : list (list F))
    (position : list Z) :
  position <> [] -> uniform_shape n coloc_maps ->
  Forall2 (fun i m => coloc_maps !! Z.to_nat i = Some m) position ms ->
  elementwise_mean fadd fdivn n coloc_maps position
    (mean_axis0 fzero fadd fdivn ms).
Proof.
  intros Hne Hn Hms.
  pose proof (selected_uniform _ _ _ _ Hn Hms) as Hsel.
  destruct Hms as [|i r position rs Hr Hrs]; [done|].
  apply Forall_cons in Hsel as [Hlenr Hlenrs].
  split.
  - simpl. rewrite length_map. apply fold_zip_length; assumption.
  - intros j Hj.
    destruct (column_exists n j coloc_maps (r :: rs) (i :: position) Hj Hn)
      as (cells & Hc1 & Hc2); [constructor; assumption|].
    exists cells. split; [exact Hc1|].
    inversion Hc2 as [|? c ? cells' Hrc Hrest]; subst. simpl.
    rewrite list_lookup_fmap, (fold_zip_cell rs r j cells' c Hrc Hrest). simpl.
    rewrite (Forall2_length _ _ _ Hrest). reflexivity.
Qed.

(** C5: for a caption, token maps of one shape and non-empty groups of
    positions of the caption, [caption_parser] returns, group by group, the
    ordered tokens at the group's positions and the elementwise arithmetic
    mean of the token maps at those positions. *)
Theorem caption_parser_phrase_means (n : nat) (tok_caption : list string)
    (coloc_maps : list (list F)) (index_list : list (list Z)) :
  uniform_shape n coloc_maps ->
  valid_groups tok_caption coloc_maps index_list ->
  Forall (fun position => position <> []) index_list ->
  exists parsed_caption parsed_coloc_maps,
    caption_parser fzero fadd fdivn tok_caption coloc_maps index_list =
      Ok (parsed_caption, parsed_coloc_maps) /\
    Forall2 (tokens_at tok_caption) index_list parsed_caption /\
    Forall2 (elementwise_mean fadd fdivn n coloc_maps) index_list
      parsed_coloc_maps.
Proof.
  intros Hn Hvalid Hne.
  induction index_list as [|position rest IH]; simpl.
  - exists [], []. repeat split; constructor.
  - apply Forall_cons in Hvalid as [Hpos Hvalid].
    apply Forall_cons in Hne as [Hp Hne].
    destruct (IH Hvalid Hne) as (pc & pm & -> & Hpc & Hpm).
    destruct (collect_valid tok_caption coloc_maps position Hpos)
      as (ws & ms & -> & Hws & Hms).
    simpl. rewrite (np_array_uniform n ms (selected_uniform _ _ _ _ Hn Hms)).
    simpl. eexists _, _. split; [reflexivity|].
    split; constructor; try assumption.
    apply mean_axis0_elementwise; assumption.
Qed.

(** C6: for every list of groups of positions of the caption, overlapping
    or not, [caption_parser] returns one phrase caption and one phrase map
    per group. *)
Theorem caption_parser_one_output_per_group (n : nat)
    (tok_caption : list string) (coloc_maps : list (list F))
    (index_list : list (list Z)) :
  uniform_shape n coloc_maps ->
  valid_groups tok_caption coloc_maps index_list ->
  exists parsed_caption parsed_coloc_maps,
    caption_parser fzero fadd fdivn tok_caption coloc_maps index_list =
      Ok (parsed_caption, parsed_coloc_maps) /\
    length parsed_caption = length index_list /\
    length parsed_coloc_maps = length index_list.
Proof.
  intros Hn Hvalid.
  induction index_list as [|position rest IH]; simpl.
  - exists [], []. repeat split.
  - apply Forall_cons in Hvalid as [Hpos Hvalid].
    destruct (IH Hvalid) as (pc & pm & -> & Hpc & Hpm).
    destruct (collect_valid tok_caption coloc_maps position Hpos)
      as (ws & ms & -> & _ & Hms).
    simpl. rewrite (np_array_uniform n ms (selected_uniform _ _ _ _ Hn Hms)).
    simpl. eexists _, _. split; [reflexivity|]. simpl. lia.
Qed.

End Aggregate.

(** C5 (witness): the caption [a dog runs] with two-cell maps and the groups
    [[0; 1]] and [[1; 2]]. *)
Lemma caption_parser_phrase_means_witness :
  exists parsed_caption parsed_coloc_maps,
    caption_parser 0%Q Sample.qadd Sample.qdivn ["a"; "dog"; "runs"]
      [[1%Q; 2%Q]; [3%Q; 4%Q]; [5%Q; 6%Q]] [[0; 1]; [1; 2]] =
      Ok (parsed_caption, parsed_coloc_maps) /\
    Forall2 (tokens_at ["a"; "dog"; "runs"]) [[0; 1]; [1; 2]] parsed_caption /\
    Forall2 (elementwise_mean Sample.qadd Sample.qdivn 2
               [[1%Q; 2%Q]; [3%Q; 4%Q]; [5%Q; 6%Q]])
      [[0; 1]; [1; 2]] parsed_coloc_maps.
Proof.
  apply (caption_parser_phrase_means 0%Q Sample.qadd Sample.qdivn 2).
  - repeat constructor.
  - repeat constructor; simpl; lia.
  - repeat constructor; discriminate.
Defined.

(** C6 (witness): the same input with the overlapping groups [[0; 1]],
    [[1; 2]] and [[1]]. *)
Lemma caption_parser_one_output_per_group_witness :
  exists parsed_caption parsed_coloc_maps,
    caption_parser 0%Q Sample.qadd Sample.qdivn ["a"; "dog"; "runs"]
      [[1%Q; 2%Q]; [3%Q; 4%Q]; [5%Q; 6%Q]] [[0; 1]; [1; 2]; [1]] =
      Ok (parsed_caption, parsed_coloc_maps) /\
    length parsed_caption = 3%nat /\ length parsed_coloc_maps = 3%nat.
Proof.
  apply (caption_parser_one_output_per_group 0%Q Sample.qadd Sample.qdivn 2).
  - repeat constructor.
  - repeat constructor; simpl; lia.
Defined.

(** The run of [caption_parser] on that input. *)
Example caption_parser_run :
  caption_parser 0%Q Sample.qadd Sample.qdivn ["a"; "dog"; "runs"]
    [[1%Q; 2%Q]; [3%Q; 4%Q]; [5%Q; 6%Q]] [[0; 1]; [1; 2]; [1]] =
  Ok ([["a"; "dog"]; ["dog"; "runs"]; ["dog"]],
      [[2%Q; 3%Q]; [4%Q; 5%Q]; [3%Q; 4%Q]]).
Proof. vm_compute. reflexivity. Qed.

(** ** The evaluation runner ([GenomeViz.loc_eval]) *)

Section LocEval.

Context {Example ColocMap Elem : Type}.
Variable gen_coloc_maps_matchmap : Example -> result ColocMap.
Variable gen_coloc_maps_phrase : Example -> result ColocMap.
Variable genome_element : Example -> ColocMap -> result Elem.
Variable hit_score_genome : Elem -> result Z.

Local Abbreviation score := (score_example gen_coloc_maps_matchmap gen_coloc_maps_phrase
                     genome_element hit_score_genome).
Local Abbreviation loop := (loc_eval_loop gen_coloc_maps_matchmap gen_coloc_maps_phrase
                    genome_element hit_score_genome).
Local Abbreviation run := (loc_eval gen_coloc_maps_matchmap gen_coloc_maps_phrase
                   genome_element hit_score_genome).
Local Abbreviation aborted := (aborted_after gen_coloc_maps_matchmap
                       gen_coloc_maps_phrase genome_element hit_score_genome).

(** While every example scores, the loop goes on: the bar counts one more
    per index, the score list grows by the score of each index, in order,
    and a line is printed for the multiples of 100 and no other index. *)
Lemma loc_eval_loop_scores (self : GenomeViz Example) (indices : list Z) :
  (forall i, i ∈ indices -> returns (score self i)) ->
  forall (rest : list Z) (n : Z) (score_list : list Z)
         (printed : list Progress),
  exists scores lines,
    loop self (indices ++ rest) n score_list printed =
      loop self rest (n + Z.of_nat (length indices)) (score_list ++ scores)
        (printed ++ lines) /\
    Forall2 (fun i s => score self i = Ok s) indices scores /\
    map pr_index lines = filter (fun i => i mod 100 = 0) indices /\
    Forall (fun p => score self (pr_index p) = Ok (pr_score p)) lines.
Proof.
  induction indices as [|index indices IH];
    intros Hok rest n score_list printed.
  - exists [], []. rewrite !app_nil_r, Z.add_0_r. repeat split; constructor.
  - assert (Hhead : returns (score self index)) by (apply Hok; left).
    assert (Htail : forall i, i ∈ indices -> returns (score self i))
      by (intros i Hi; apply Hok; right; exact Hi).
    simpl. destruct (score self index) as [s|e] eqn:Hs; [|destruct Hhead].
    destruct (Z.eqb_spec (index mod 100) 0) as [Hmod|Hmod].
    + destruct (mean_snoc score_list s) as [m ->].
      destruct (IH Htail rest (n + 1) (score_list ++ [s])
                  (printed ++ [mkProgress index s m]))
        as (scores & lines & -> & Hscores & Hidx & Hlines).
      exists (s :: scores), (mkProgress index s m :: lines).
      rewrite <- !app_assoc. repeat split.
      * f_equal. lia.
      * constructor; assumption.
      * rewrite filter_cons_True by exact Hmod. simpl. f_equal. exact Hidx.
      * constructor; [exact Hs|exact Hlines].
    + destruct (IH Htail rest (n + 1) (score_list ++ [s]) printed)
        as (scores & lines & -> & Hscores & Hidx & Hlines).
      exists (s :: scores), lines.
      rewrite <- !app_assoc. repeat split.
      * f_equal. lia.
      * constructor; assumption.
      * rewrite filter_cons_False by exact Hmod. exact Hidx.
      * exact Hlines.
Qed.

(** What a loop that came to its end has done. *)
Lemma loc_eval_loop_ok_inv (self : GenomeViz Example) (indices : list Z) :
  forall (n n' : Z) (score_list : list Z) (printed out : list Progress)
         (scores' : list Z),
  loop self indices n score_list printed = (out, n', Ok scores') ->
  exists scores lines,
    scores' = score_list ++ scores /\ out = printed ++ lines /\
    n' = n + Z.of_nat (length indices) /\
    Forall2 (fun i s => score self i = Ok s) indices scores /\
    map pr_index lines = filter (fun i => i mod 100 = 0) indices /\
    Forall (fun p => score self (pr_index p) = Ok (pr_score p)) lines.
Proof.
  induction indices as [|index indices IH];
    intros n n' score_list printed out scores'; simpl.
  - intros [= <- <- <-]. exists [], []. rewrite !app_nil_r, Z.add_0_r.
    repeat split; constructor.
  - destruct (score self index) as [s|e] eqn:Hs; [|discriminate].
    destruct (Z.eqb_spec (index mod 100) 0) as [Hmod|Hmod].
    + destruct (Py.mean (score_list ++ [s])) as [m|e]; [|discriminate].
      intros Hloop. apply IH in Hloop
        as (scores & lines & -> & -> & -> & Hscores & Hidx & Hlines).
      exists (s :: scores), (mkProgress index s m :: lines).
      rewrite <- !app_assoc. simpl. repeat split.
      * lia.
      * constructor; assumption.
      * rewrite filter_cons_True by exact Hmod. simpl. f_equal. exact Hidx.
      * constructor; [exact Hs|exact Hlines].
    + intros Hloop. apply IH in Hloop
        as (scores & lines & -> & -> & -> & Hscores & Hidx & Hlines).
      exists (s :: scores), lines.
      rewrite <- !app_assoc. simpl. repeat split.
      * lia.
      * constructor; assumption.
      * rewrite filter_cons_False by exact Hmod. exact Hidx.
      * exact Hlines.
Qed.

(** C4, as the code has it: with [last = 0] nothing is scored or printed and
    [statistics.mean] raises [StatisticsError] on the empty score list, so no
    score list is returned; a run over [last >= 1] examples that all score
    returns the list of their [last] scores, in the order of the indices,
    and the mean of that list. *)
Theorem loc_eval_empty_run_raises :
  (forall self : GenomeViz Example,
     run self 0 = ([], mkBar 0 0, Raise StatisticsError)) /\
  (forall (self : GenomeViz Example) (last : Z),
     0 < last ->
     (forall i, 0 <= i < last -> returns (score self i)) ->
     exists score_list m,
       (run self last).2 = Ok (score_list, m) /\
       Forall2 (fun i s => score self i = Ok s) (Py.arange last) score_list /\
       length score_list = Z.to_nat last /\
       Py.mean score_list = Ok m).
Proof.
  split; [reflexivity|].
  intros self last Hlast Hok. unfold loc_eval.
  destruct (loc_eval_loop_scores self (Py.arange last)) with
    (rest := @nil Z) (n := 0) (score_list := @nil Z) (printed := @nil Progress)
    as (scores & lines & Hrun & Hscores & _).
  { intros i Hi. apply Hok, elem_of_arange, Hi. }
  rewrite app_nil_r in Hrun. rewrite Hrun. simpl.
  assert (Hlen : length scores = Z.to_nat last).
  { rewrite <- (Forall2_length _ _ _ Hscores).
    unfold Py.arange. rewrite length_map, length_seq. reflexivity. }
  destruct scores as [|s scores]; [simpl in Hlen; lia|].
  simpl. eexists _, _. repeat split; [exact Hscores|exact Hlen].
Qed.

(** C8: when example [k] raises after the examples before it were scored,
    the exception leaves [loc_eval] and the bar of [tqdm] is left at [k] of
    [last]: the number of examples scored before the failure.  Printed are
    the progress lines of the multiples of 100 below [k], each with the
    score of its index; no score list is returned. *)
Theorem loc_eval_abort_reports_count (self : GenomeViz Example) (last k : Z)
    (e : PyExc) :
  aborted self last k e ->
  exists lines,
    run self last = (lines, mkBar k last, Raise e) /\
    map pr_index lines = filter (fun i => i mod 100 = 0) (Py.arange k) /\
    Forall (fun p => score self (pr_index p) = Ok (pr_score p)) lines.
Proof.
  intros (Hk & Hok & Hfail). unfold loc_eval.
  assert (Htotal : Z.of_nat (length (Py.arange last)) = last).
  { unfold Py.arange. rewrite length_map, length_seq. lia. }
  rewrite Htotal.
  destruct (arange_split last k Hk) as [post ->].
  destruct (loc_eval_loop_scores self (Py.arange k)) with
    (rest := k :: post) (n := 0) (score_list := @nil Z)
    (printed := @nil Progress)
    as (scores & lines & -> & _ & Hidx & Hlines).
  { intros i Hi. apply Hok, elem_of_arange, Hi. }
  simpl. rewrite Hfail. simpl. exists lines.
  assert (Hn : Z.of_nat (length (Py.arange k)) = k).
  { unfold Py.arange. rewrite length_map, length_seq. lia. }
  rewrite Hn. repeat split; assumption.
Qed.

End LocEval.

(** C4 (witness): three examples that all score 1. *)
Lemma loc_eval_empty_run_raises_witness :
  loc_eval Sample.gen_map Sample.gen_map Sample.element_of Sample.hit
    (Sample.viz_failing_at 7) 0 = ([], mkBar 0 0, Raise StatisticsError) /\
  exists score_list m,
    (loc_eval Sample.gen_map Sample.gen_map Sample.element_of Sample.hit
       (Sample.viz_failing_at 7) 3).2 = Ok (score_list, m) /\
    Forall2 (fun i s =>
               score_example Sample.gen_map Sample.gen_map Sample.element_of
                 Sample.hit (Sample.viz_failing_at 7) i = Ok s)
      (Py.arange 3) score_list /\
    length score_list = Z.to_nat 3 /\
    Py.mean score_list = Ok m.
Proof.
  pose proof (loc_eval_empty_run_raises Sample.gen_map Sample.gen_map
                Sample.element_of Sample.hit) as [Hzero Hsome].
  split; [apply Hzero|].
  apply Hsome; [lia|].
  intros i Hi. unfold score_example, Sample.viz_failing_at. simpl.
  destruct (Z.eqb_spec i 7) as [?|_]; [lia|]. exact I.
Defined.

(** C4 (counterexample): the run over no example returns no pair of an
    empty score list and a mean. *)
Lemma loc_eval_zero_returns_nothing :
  ~ exists m : Q,
      (loc_eval Sample.gen_map Sample.gen_map Sample.element_of Sample.hit
         (Sample.viz_failing_at 7) 0).2 = Ok ([], m).
Proof. intros [m Hm]. discriminate Hm. Qed.

(** C8 (witness): the example at index 2 of 5 is missing. *)
Lemma loc_eval_abort_reports_count_witness :
  exists lines,
    loc_eval Sample.gen_map Sample.gen_map Sample.element_of Sample.hit
      (Sample.viz_failing_at 2) 5 = (lines, mkBar 2 5, Raise KeyError) /\
    map pr_index lines = filter (fun i => i mod 100 = 0) (Py.arange 2) /\
    Forall (fun p =>
              score_example Sample.gen_map Sample.gen_map Sample.element_of
                Sample.hit (Sample.viz_failing_at 2) (pr_index p)
              = Ok (pr_score p)) lines.
Proof.
  apply (loc_eval_abort_reports_count Sample.gen_map Sample.gen_map
           Sample.element_of Sample.hit (Sample.viz_failing_at 2) 5 2 KeyError).
  split; [lia|]. split; [|reflexivity].
  intros i Hi. unfold score_example, Sample.viz_failing_at. simpl.
  destruct (Z.eqb_spec i 2) as [?|_]; [lia|]. exact I.
Defined.

(** The two runs of three examples aborted at index 1 and at index 2: the
    same line is printed, the bars differ. *)
Example loc_eval_aborted_runs :
  loc_eval Sample.gen_map Sample.gen_map Sample.element_of Sample.hit
    (Sample.viz_failing_at 1) 3 =
    ([mkProgress 0 1 1%Q], mkBar 1 3, Raise KeyError) /\
  loc_eval Sample.gen_map Sample.gen_map Sample.element_of Sample.hit
    (Sample.viz_failing_at 2) 3 =
    ([mkProgress 0 1 1%Q], mkBar 2 3, Raise KeyError).
Proof. split; reflexivity. Qed.

(** ** Map generation ([gen_coloc_maps]) *)

Lemma for_append_length {A B : Type} (body : A -> result B) (l : list A)
    (ys : list B) :
  Py.for_append body l = Ok ys -> length ys = length l.
Proof.
  revert ys. induction l as [|x l IH]; intros ys; simpl.
  - intros [= <-]. reflexivity.
  - destruct (body x) as [y|e]; simpl; [|discriminate].
    destruct (Py.for_append body l) as [ys'|e]; simpl; [|discriminate].
    intros [= <-]. simpl. f_equal. apply IH. reflexivity.
Qed.

Section GenColocMaps.

Context {F ImgIn CapIn ImgFeat CapFeat : Type}.
Variable matchmap_generate : ImgFeat -> CapFeat -> list F.

(** The batch size is read from the image model, not from a tensor: a model
    object without a [size] attribute makes the function raise. *)
Lemma gen_coloc_maps_needs_size (image_model : Model ImgIn ImgFeat)
    (caption_model : Model CapIn CapFeat) (image_tensor : list ImgIn)
    (caption_glove : list CapIn) :
  size_attr image_model = None ->
  gen_coloc_maps matchmap_generate image_model caption_model image_tensor
    caption_glove = Raise AttributeError.
Proof. intros Hsize. unfold gen_coloc_maps. rewrite Hsize. reflexivity. Qed.

(** With an object that answers [size(0)], the number of maps is that
    answer, whatever the batch holds. *)
Lemma gen_coloc_maps_length (image_model : Model ImgIn ImgFeat)
    (caption_model : Model CapIn CapFeat) (image_tensor : list ImgIn)
    (caption_glove : list CapIn) (size : Z -> Z) (maps : list (list F)) :
  size_attr image_model = Some size ->
  gen_coloc_maps matchmap_generate image_model caption_model image_tensor
    caption_glove = Ok maps ->
  length maps = Z.to_nat (size 0).
Proof.
  intros Hsize. unfold gen_coloc_maps. rewrite Hsize. simpl. intros Hmaps.
  apply for_append_length in Hmaps. rewrite Hmaps.
  unfold Py.arange. rewrite length_map, length_seq. reflexivity.
Qed.

End GenColocMaps.

(** C1 (failing input): with the image model a module, which has no [size]
    attribute, a batch of two examples gives [AttributeError] and no list of
    maps; with an object whose [size(0)] is 1 the same batch gives one map. *)
Theorem gen_coloc_maps_batch_of_two :
  gen_coloc_maps Sample.matchmap Sample.module Sample.module [10; 20] [1; 2]
    = Raise AttributeError /\
  gen_coloc_maps Sample.matchmap Sample.sized_module Sample.module [10; 20]
    [1; 2] = Ok [[inject_Z 10; inject_Z 1]].
Proof. split; reflexivity. Qed.

(** ** The segmentation view ([seg_viz]) *)

Section SegViz.

Context {F Phrase ColorImg : Type}.
Variable fzero : F.
Variables (fadd fmul : F -> F -> F) (fdivn : F -> nat -> F).
Variable flt : F -> F -> bool.
Variable resize : list F -> list F.
Variable apply_mask : ColorImg -> list Z -> ColorImg.

(** [range(len(mask_list)) + 1] raises before the loop is entered. *)
Lemma seg_viz_raises (mask_list : list (list F)) (caption : list Phrase)
    (color_img : ColorImg) (thresh : F) :
  seg_viz fzero fadd fmul fdivn flt resize apply_mask mask_list caption
    color_img thresh = Raise TypeError.
Proof. reflexivity. Qed.

(** The thresholding expression of the loop body: a cell below the cutoff
    becomes 0, any other cell 1. *)
Lemma np_where_lt_cell (mask : list F) (cutoff x : F) (j : nat) :
  mask !! j = Some x ->
  np_where_lt flt mask cutoff !! j = Some (if flt x cutoff then 0 else 1).
Proof.
  intros Hx. unfold np_where_lt. rewrite list_lookup_fmap, Hx. reflexivity.
Qed.

(** The body of the loop, were it run for a position [id], thresholds the
    resized mask at [thresh * mean]. *)
Lemma seg_viz_body_thresholds (mask_list : list (list F))
    (caption : list Phrase) (color_img : ColorImg) (thresh : F) (id : Z)
    (sp : Subplot (list F) Phrase) :
  seg_viz_body fzero fadd fmul fdivn flt resize apply_mask mask_list caption
    color_img thresh id = Ok sp ->
  sp_mask2 _ _ sp =
  np_where_lt flt (sp_mask _ _ sp)
    (fmul thresh (np_mean fzero fadd fdivn (sp_mask _ _ sp))).
Proof.
  unfold seg_viz_body.
  destruct (Py.getitem caption id) as [cap_phrase|e]; simpl; [|discriminate].
  destruct (Py.getitem mask_list id) as [frame|e]; simpl; [|discriminate].
  intros [= <-]. reflexivity.
Qed.

End SegViz.

(** C7 (failing input): for one four-cell mask and the threshold 1/2,
    [seg_viz] raises [TypeError] and thresholds nothing; the thresholding
    expression alone would give [0; 0; 1; 1]. *)
Theorem seg_viz_one_mask :
  seg_viz 0%Q Sample.qadd Sample.qmul Sample.qdivn Sample.qlt Sample.keep
    Sample.mask_image [[0%Q; 0%Q; 1%Q; 1%Q]] ["dog"] tt (1 # 2)%Q
    = Raise TypeError /\
  np_where_lt Sample.qlt [0%Q; 0%Q; 1%Q; 1%Q]
    (Sample.qmul (1 # 2)%Q
       (np_mean 0%Q Sample.qadd Sample.qdivn [0%Q; 0%Q; 1%Q; 1%Q]))
    = [0; 0; 1; 1].
Proof. split; vm_compute; reflexivity. Qed.

(** ** The loader constructors ([get_loader.py]) *)

Lemma valid_mode_cases (mode : string) :
  valid_mode mode = true -> mode = "train" \/ mode = "val" \/ mode = "test".
Proof.
  unfold valid_mode. rewrite !orb_true_iff, !String.eqb_eq. tauto.
Qed.

Lemma classic_coco_cond (mode : string) (batch_size : Z) :
  (mode = "train" \/ mode = "val" \/ (mode = "test" /\ batch_size = 1)) \/
  ~ (mode = "train" \/ mode = "val" \/ (mode = "test" /\ batch_size = 1)).
Proof.
  destruct (String.eqb_spec mode "train"); [tauto|].
  destruct (String.eqb_spec mode "val"); [tauto|].
  destruct (String.eqb_spec mode "test"), (Z.eqb_spec batch_size 1); tauto.
Qed.

Section Loaders.

Context {Transform Dataset : Type}.
Variable COCODataset : CocoArgs Transform -> Dataset.
Variable FlickrDataset : FlickrArgs Transform -> Dataset.
Variable VisualGenome : GenomeArgs Transform -> Dataset.
Variable pad_caption_of : Dataset -> bool.
Variable batch_size_of : Dataset -> Z.
Variable get_indices : Dataset -> list Z.
Variable len_of : Dataset -> Z.

(** The outcome of the shared tail: a loader on the dataset that keeps a
    short final batch when torch accepts the arguments, [ValueError] when it
    does not. *)
Lemma make_loader_outcome (dataset : Dataset) (num_workers : Z) :
  match make_loader pad_caption_of batch_size_of get_indices len_of dataset
          num_workers with
  | Ok dl =>
      torch_accepts pad_caption_of batch_size_of len_of dataset num_workers /\
      dl_dataset dl = dataset /\ dl_num_workers dl = num_workers /\
      drops_short_final_batch dl = false
  | Raise e =>
      e = ValueError /\
      ~ torch_accepts pad_caption_of batch_size_of len_of dataset num_workers
  end.
Proof.
  unfold make_loader, BatchSampler_new, DataLoader_new, torch_accepts.
  destruct (pad_caption_of dataset).
  - destruct (Z.leb_spec (batch_size_of dataset) 0); simpl;
      [split; [reflexivity|lia]|].
    destruct (Z.ltb_spec num_workers 0); simpl; [split; [reflexivity|lia]|].
    repeat split; try reflexivity; try lia; try discriminate.
  - destruct (Z.ltb_spec num_workers 0); simpl; [split; [reflexivity|lia]|].
    destruct (Z.leb_spec (len_of dataset) 0); simpl.
    { split; [reflexivity|]. intros (_ & _ & Hlen). specialize (Hlen eq_refl).
      lia. }
    destruct (Z.leb_spec (batch_size_of dataset) 0); simpl;
      [split; [reflexivity|lia]|].
    repeat split; try reflexivity; lia.
Qed.

Lemma make_loader_keeps_short_batches (dataset : Dataset) (num_workers : Z)
    (dl : DataLoader Dataset) :
  make_loader pad_caption_of batch_size_of get_indices len_of dataset
    num_workers = Ok dl ->
  drops_short_final_batch dl = false.
Proof.
  intros Hdl. pose proof (make_loader_outcome dataset num_workers) as H.
  rewrite Hdl in H. apply H.
Qed.

Lemma make_loader_dataset (dataset : Dataset) (num_workers : Z)
    (dl : DataLoader Dataset) :
  make_loader pad_caption_of batch_size_of get_indices len_of dataset
    num_workers = Ok dl ->
  dl_dataset dl = dataset.
Proof.
  intros Hdl. pose proof (make_loader_outcome dataset num_workers) as H.
  rewrite Hdl in H. apply H.
Qed.

Lemma make_loader_returns (dataset : Dataset) (num_workers : Z) :
  torch_accepts pad_caption_of batch_size_of len_of dataset num_workers ->
  exists dl,
    make_loader pad_caption_of batch_size_of get_indices len_of dataset
      num_workers = Ok dl /\
    drops_short_final_batch dl = false.
Proof.
  intros Hacc. pose proof (make_loader_outcome dataset num_workers) as H.
  destruct (make_loader _ _ _ _ dataset num_workers) as [dl|e].
  - exists dl. split; [reflexivity|apply H].
  - destruct H as [_ H]. contradiction.
Qed.

Lemma make_loader_raises (dataset : Dataset) (num_workers : Z) :
  ~ torch_accepts pad_caption_of batch_size_of len_of dataset num_workers ->
  make_loader pad_caption_of batch_size_of get_indices len_of dataset
    num_workers = Raise ValueError.
Proof.
  intros Hacc. pose proof (make_loader_outcome dataset num_workers) as H.
  destruct (make_loader _ _ _ _ dataset num_workers) as [dl|e].
  - destruct H as [H _]. contradiction.
  - destruct H as [-> _]. reflexivity.
Qed.

(** On the length-bucketed path the batch sampler carries [drop_last=False]. *)
Lemma make_loader_bucketed (dataset : Dataset) (num_workers : Z)
    (dl : DataLoader Dataset) :
  pad_caption_of dataset = true ->
  make_loader pad_caption_of batch_size_of get_indices len_of dataset
    num_workers = Ok dl ->
  dl_batch_sampler dl
  = Some (mkBatchSampler (get_indices dataset) (batch_size_of dataset) false).
Proof.
  intros Hpad. unfold make_loader, BatchSampler_new, DataLoader_new.
  rewrite Hpad.
  destruct (batch_size_of dataset <=? 0); simpl; [discriminate|].
  destruct (num_workers <? 0); simpl; [discriminate|].
  intros [= <-]. reflexivity.
Qed.

(** What [get_loader_coco] does once its assertions have passed: it builds
    the dataset, always to pad captions up to 20, and runs the shared tail
    on it. *)
Lemma get_loader_coco_tail (transform : Transform) (mode : string)
    (batch_size : Z) (start_word end_word unk_word : string)
    (num_workers : Z) (cocoapi_loc vocab_glove_file : string) (test_size : Z)
    (pad_caption : bool) :
  mode = "train" \/ mode = "val" \/ (mode = "test" /\ batch_size = 1) ->
  exists annotations_file img_folder,
    get_loader_coco COCODataset pad_caption_of batch_size_of get_indices
      len_of transform mode batch_size start_word end_word unk_word
      num_workers cocoapi_loc vocab_glove_file test_size pad_caption =
    make_loader pad_caption_of batch_size_of get_indices len_of
      (COCODataset
         (mkCocoArgs transform mode batch_size annotations_file
            vocab_glove_file img_folder start_word end_word unk_word true 20))
      num_workers.
Proof.
  intros [->|[->|[-> ->]]]; eexists _, _; reflexivity.
Qed.

Lemma get_loader_coco_asserts (transform : Transform) (mode : string)
    (batch_size : Z) (start_word end_word unk_word : string)
    (num_workers : Z) (cocoapi_loc vocab_glove_file : string) (test_size : Z)
    (pad_caption : bool) :
  ~ (mode = "train" \/ mode = "val" \/ (mode = "test" /\ batch_size = 1)) ->
  get_loader_coco COCODataset pad_caption_of batch_size_of get_indices
    len_of transform mode batch_size start_word end_word unk_word
    num_workers cocoapi_loc vocab_glove_file test_size pad_caption =
  Raise AssertionError.
Proof.
  intros Hcond. unfold get_loader_coco, valid_mode.
  destruct (String.eqb_spec mode "train") as [->|Htrain]; [tauto|].
  destruct (String.eqb_spec mode "val") as [->|Hval]; [tauto|].
  destruct (String.eqb_spec mode "test") as [->|Htest]; simpl;
    [|reflexivity].
  destruct (Z.eqb_spec batch_size 1) as [->|Hbs]; [tauto|reflexivity].
Qed.

(** The folders [get_loader_flickr] hands to [FlickrDataset], as joins of
    the location and the components, and the shared tail run on the
    dataset. *)
Lemma get_loader_flickr_folders (transform : Transform) (mode : string)
    (batch_size : Z) (start_word end_word unk_word : string)
    (num_workers : Z) (flickr_loc vocab_glove_file : string)
    (pad_caption : bool) (pad_limit : Z) (parse_mode : string) :
  valid_mode mode = true ->
  get_loader_flickr FlickrDataset pad_caption_of batch_size_of get_indices
    len_of transform mode batch_size start_word end_word unk_word
    num_workers flickr_loc vocab_glove_file pad_caption pad_limit parse_mode =
  make_loader pad_caption_of batch_size_of get_indices len_of
    (FlickrDataset
       (mkFlickrArgs transform mode batch_size
          (Py.join_step
             (Py.path_join flickr_loc
                [Py.path_join flickr_loc
                   ["data"; "flickr_30kentities"; "annotations_flickr";
                    "Sentences"]; mode]) "data.json")
          (Py.path_join flickr_loc
             [Py.path_join flickr_loc
                ["data"; "flickr_30kentities"; "annotations_flickr";
                 "Sentences"]; mode])
          (Py.path_join flickr_loc
             [Py.path_join flickr_loc
                ["data"; "flickr_30kentities"; "annotations_flickr";
                 "Annotations"]; mode])
          (Py.path_join flickr_loc
             [Py.path_join flickr_loc
                ["data"; "flickr_30kentities"; "flickr30k-images"]; mode])
          vocab_glove_file parse_mode pad_caption start_word end_word
          unk_word pad_limit)) num_workers.
Proof.
  intros Hmode.
  destruct (valid_mode_cases mode Hmode) as [->|[->| ->]]; reflexivity.
Qed.

Lemma get_loader_flickr_asserts (transform : Transform) (mode : string)
    (batch_size : Z) (start_word end_word unk_word : string)
    (num_workers : Z) (flickr_loc vocab_glove_file : string)
    (pad_caption : bool) (pad_limit : Z) (parse_mode : string) :
  valid_mode mode = false ->
  get_loader_flickr FlickrDataset pad_caption_of batch_size_of get_indices
    len_of transform mode batch_size start_word end_word unk_word
    num_workers flickr_loc vocab_glove_file pad_caption pad_limit parse_mode =
  Raise AssertionError.
Proof. intros Hmode. unfold get_loader_flickr. rewrite Hmode. reflexivity. Qed.

(** C9: the batching layer that each of the three constructors builds keeps
    a short final batch: whenever a constructor returns a loader, the
    loader's batches are made with [drop_last] false (given to the batch
    sampler on the length-bucketed path, the default of [DataLoader]
    otherwise); and each constructor returns a loader when its own
    assertions pass and torch accepts the arguments for the dataset it
    builds. *)
Theorem loaders_keep_short_final_batches :
  (forall transform mode batch_size start_word end_word unk_word num_workers
          cocoapi_loc vocab_glove_file test_size pad_caption,
     (forall dl,
        get_loader_coco COCODataset pad_caption_of batch_size_of get_indices
          len_of transform mode batch_size start_word end_word unk_word
          num_workers cocoapi_loc vocab_glove_file test_size pad_caption
          = Ok dl ->
        drops_short_final_batch dl = false) /\
     (mode = "train" \/ mode = "val" \/ (mode = "test" /\ batch_size = 1) ->
      (forall a, coco_mode Transform a = mode ->
         coco_batch_size Transform a = batch_size ->
         torch_accepts pad_caption_of batch_size_of len_of (COCODataset a)
           num_workers) ->
      exists dl,
        get_loader_coco COCODataset pad_caption_of batch_size_of get_indices
          len_of transform mode batch_size start_word end_word unk_word
          num_workers cocoapi_loc vocab_glove_file test_size pad_caption
          = Ok dl /\
        drops_short_final_batch dl = false)) /\
  (forall transform mode batch_size start_word end_word unk_word num_workers
          flickr_loc vocab_glove_file pad_caption pad_limit parse_mode,
     (forall dl,
        get_loader_flickr FlickrDataset pad_caption_of batch_size_of
          get_indices len_of transform mode batch_size start_word end_word
          unk_word num_workers flickr_loc vocab_glove_file pad_caption
          pad_limit parse_mode = Ok dl ->
        drops_short_final_batch dl = false) /\
     (valid_mode mode = true ->
      (forall a, flickr_mode Transform a = mode ->
         flickr_batch_size Transform a = batch_size ->
         torch_accepts pad_caption_of batch_size_of len_of (FlickrDataset a)
           num_workers) ->
      exists dl,
        get_loader_flickr FlickrDataset pad_caption_of batch_size_of
          get_indices len_of transform mode batch_size start_word end_word
          unk_word num_workers flickr_loc vocab_glove_file pad_caption
          pad_limit parse_mode = Ok dl /\
        drops_short_final_batch dl = false)) /\
  (forall transform mode batch_size start_word end_word unk_word num_workers
          genome_loc vocab_glove_file pad_caption pad_limit,
     (forall dl,
        get_loader_genome VisualGenome pad_caption_of batch_size_of
          get_indices len_of transform mode batch_size start_word end_word
          unk_word num_workers genome_loc vocab_glove_file pad_caption
          pad_limit = Ok dl ->
        drops_short_final_batch dl = false) /\
     ((forall a, genome_batch_size Transform a = batch_size ->
         torch_accepts pad_caption_of batch_size_of len_of (VisualGenome a)
           num_workers) ->
      exists dl,
        get_loader_genome VisualGenome pad_caption_of batch_size_of
          get_indices len_of transform mode batch_size start_word end_word
          unk_word num_workers genome_loc vocab_glove_file pad_caption
          pad_limit = Ok dl /\
        drops_short_final_batch dl = false)).
Proof.
  split; [|split].
  - intros transform mode batch_size start_word end_word unk_word num_workers
      cocoapi_loc vocab_glove_file test_size pad_caption.
    destruct (classic_coco_cond mode batch_size) as [Hcond|Hcond].
    + destruct (get_loader_coco_tail transform mode batch_size start_word
                  end_word unk_word num_workers cocoapi_loc vocab_glove_file
                  test_size pad_caption Hcond) as (ann & img & ->).
      split.
      * intros dl. apply make_loader_keeps_short_batches.
      * intros _ Hacc. apply make_loader_returns, Hacc; reflexivity.
    + rewrite get_loader_coco_asserts by exact Hcond.
      split; [discriminate|]. intros H. contradiction.
  - intros transform mode batch_size start_word end_word unk_word num_workers
      flickr_loc vocab_glove_file pad_caption pad_limit parse_mode.
    destruct (valid_mode mode) eqn:Hmode.
    + rewrite get_loader_flickr_folders by exact Hmode. split.
      * intros dl. apply make_loader_keeps_short_batches.
      * intros _ Hacc. apply make_loader_returns, Hacc; reflexivity.
    + rewrite get_loader_flickr_asserts by exact Hmode.
      split; [discriminate|]. discriminate.
  - intros transform mode batch_size start_word end_word unk_word num_workers
      genome_loc vocab_glove_file pad_caption pad_limit.
    unfold get_loader_genome. split.
    + intros dl. apply make_loader_keeps_short_batches.
    + intros Hacc. apply make_loader_returns, Hacc. reflexivity.
Qed.

(** C10: [get_loader_genome] builds the same loader whatever [mode] and
    [vocab_glove_file] it is called with: it is the shared tail run on the
    [VisualGenome] dataset built in mode ["train"] with the vocabulary file
    under [genome_loc], and that dataset is the dataset of every loader it
    returns. *)
Theorem get_loader_genome_ignores_mode_and_vocab
    (transform : Transform) (mode1 mode2 : string) (batch_size : Z)
    (start_word end_word unk_word : string) (num_workers : Z)
    (genome_loc vocab1 vocab2 : string) (pad_caption : bool) (pad_limit : Z) :
  get_loader_genome VisualGenome pad_caption_of batch_size_of get_indices
    len_of transform mode1 batch_size start_word end_word unk_word
    num_workers genome_loc vocab1 pad_caption pad_limit =
  get_loader_genome VisualGenome pad_caption_of batch_size_of get_indices
    len_of transform mode2 batch_size start_word end_word unk_word
    num_workers genome_loc vocab2 pad_caption pad_limit /\
  get_loader_genome VisualGenome pad_caption_of batch_size_of get_indices
    len_of transform mode1 batch_size start_word end_word unk_word
    num_workers genome_loc vocab1 pad_caption pad_limit =
  make_loader pad_caption_of batch_size_of get_indices len_of
    (VisualGenome
       (mkGenomeArgs transform "train" batch_size
          (Py.path_join genome_loc
             ["data"; "visual_genome"; "coco_phrase_data.json"])
          (Py.path_join genome_loc ["data"; "visual_genome"; "images"])
          (Py.path_join genome_loc
             ["data"; "visual_genome"; "vocab_glove.json"])
          start_word end_word unk_word pad_caption pad_limit)) num_workers /\
  forall dl,
    get_loader_genome VisualGenome pad_caption_of batch_size_of get_indices
      len_of transform mode1 batch_size start_word end_word unk_word
      num_workers genome_loc vocab1 pad_caption pad_limit = Ok dl ->
    dl_dataset dl =
    VisualGenome
      (mkGenomeArgs transform "train" batch_size
         (Py.path_join genome_loc
            ["data"; "visual_genome"; "coco_phrase_data.json"])
         (Py.path_join genome_loc ["data"; "visual_genome"; "images"])
         (Py.path_join genome_loc
            ["data"; "visual_genome"; "vocab_glove.json"])
         start_word end_word unk_word pad_caption pad_limit).
Proof.
  split; [reflexivity|]. split; [reflexivity|].
  intros dl. unfold get_loader_genome. apply make_loader_dataset.
Qed.

End Loaders.

(** C9 (witness): the three constructors in training and validation mode,
    batches of 8. *)
Lemma loaders_keep_short_final_batches_witness :
  (exists dl,
     get_loader_coco Sample.Coco Sample.pad_caption_of Sample.batch_size_of
       Sample.get_indices Sample.len_of tt "train" 8 "<start>" "<end>"
       "<unk>" 4 "" "data/mscoco/vocab_glove.json" 1000 true = Ok dl /\
     drops_short_final_batch dl = false) /\
  (exists dl,
     get_loader_flickr Sample.Flickr Sample.pad_caption_of
       Sample.batch_size_of Sample.get_indices Sample.len_of tt "val" 8
       "<start>" "<end>" "<unk>" 1 ""
       "data/flickr_30kentities/vocab_glove_flickr.json" true 20 "phrase"
       = Ok dl /\
     drops_short_final_batch dl = false) /\
  (exists dl,
     get_loader_genome Sample.Genome Sample.pad_caption_of
       Sample.batch_size_of Sample.get_indices Sample.len_of tt "train" 8
       "<start>" "<end>" "<unk>" 1 "" "data/visual_genome/vocab_glove.json"
       false 20 = Ok dl /\
     drops_short_final_batch dl = false).
Proof.
  pose proof (loaders_keep_short_final_batches Sample.Coco Sample.Flickr
                Sample.Genome Sample.pad_caption_of Sample.batch_size_of
                Sample.get_indices Sample.len_of) as (Hcoco & Hflickr & Hgenome).
  split; [|split].
  - apply (Hcoco tt "train" 8 "<start>" "<end>" "<unk>" 4 ""
             "data/mscoco/vocab_glove.json" 1000 true).
    + left. reflexivity.
    + intros a _ Hbs. unfold torch_accepts. simpl. rewrite Hbs.
      unfold Sample.len_of. lia.
  - apply (Hflickr tt "val" 8 "<start>" "<end>" "<unk>" 1 ""
             "data/flickr_30kentities/vocab_glove_flickr.json" true 20
             "phrase").
    + reflexivity.
    + intros a _ Hbs. unfold torch_accepts. simpl. rewrite Hbs.
      unfold Sample.len_of. lia.
  - apply (Hgenome tt "train" 8 "<start>" "<end>" "<unk>" 1 ""
             "data/visual_genome/vocab_glove.json" false 20).
    intros a Hbs. unfold torch_accepts. simpl. rewrite Hbs.
    unfold Sample.len_of. lia.
Defined.

(** The Visual Genome loader asked for the test split and another
    vocabulary file, run on the sample dataset class. *)
Example get_loader_genome_run :
  get_loader_genome Sample.Genome Sample.pad_caption_of Sample.batch_size_of
    Sample.get_indices Sample.len_of tt "test" 8 "<start>" "<end>" "<unk>" 1
    "/srv" "other.json" true 20 =
  Ok (mkDataLoader
        (Sample.Genome
           (mkGenomeArgs tt "train" 8
              "/srv/data/visual_genome/coco_phrase_data.json"
              "/srv/data/visual_genome/images"
              "/srv/data/visual_genome/vocab_glove.json"
              "<start>" "<end>" "<unk>" true 20))
        1 false (Some (mkBatchSampler [0; 1; 2] 8 false)) 1 false).
Proof. vm_compute. reflexivity. Qed.

(** The same call with a batch size of 0: torch refuses the batch sampler. *)
Example get_loader_genome_batch_size_0 :
  get_loader_genome Sample.Genome Sample.pad_caption_of Sample.batch_size_of
    Sample.get_indices Sample.len_of tt "test" 0 "<start>" "<end>" "<unk>" 1
    "/srv" "other.json" true 20 = Raise ValueError.
Proof. vm_compute. reflexivity. Qed.

(** * Further properties *)

(** ** Indexing and loops *)

Lemma getitem_in_range {A : Type} (l : list A) (i : Z) :
  in_range l i ->
  exists x, Py.getitem l i = Ok x /\ l !! position_of l i = Some x.
Proof.
  unfold in_range, Py.getitem, position_of. intros Hi.
  destruct (Z.ltb_spec i 0) as [Hneg|Hpos].
  - destruct (Z.leb_spec 0 (i + Z.of_nat (length l))) as [_|?]; [|lia].
    destruct (Z.ltb_spec (i + Z.of_nat (length l)) (Z.of_nat (length l)))
      as [_|?]; [|lia].
    simpl. destruct (l !! Z.to_nat (i + Z.of_nat (length l))) as [x|] eqn:Hl;
      [eauto|].
    apply lookup_ge_None in Hl. lia.
  - destruct (Z.leb_spec 0 i) as [_|?]; [|lia].
    destruct (Z.ltb_spec i (Z.of_nat (length l))) as [_|?]; [|lia].
    simpl. destruct (l !! Z.to_nat i) as [x|] eqn:Hl; [eauto|].
    apply lookup_ge_None in Hl. lia.
Qed.

Lemma getitem_out_of_range {A : Type} (l : list A) (i : Z) :
  ~ in_range l i -> Py.getitem l i = Raise IndexError.
Proof.
  unfold in_range, Py.getitem. intros Hi.
  destruct (Z.ltb_spec i 0) as [Hneg|Hpos].
  - destruct (Z.leb_spec 0 (i + Z.of_nat (length l))) as [?|_]; [|reflexivity].
    destruct (Z.ltb_spec (i + Z.of_nat (length l)) (Z.of_nat (length l)))
      as [?|_]; [lia|reflexivity].
  - destruct (Z.leb_spec 0 i) as [_|?]; [|lia].
    destruct (Z.ltb_spec i (Z.of_nat (length l))) as [?|_]; [lia|reflexivity].
Qed.

Lemma in_range_dec {A : Type} (l : list A) (i : Z) :
  in_range l i \/ ~ in_range l i.
Proof. unfold in_range. lia. Qed.

Lemma getitem_ok_inv {A : Type} (l : list A) (i : Z) (x : A) :
  Py.getitem l i = Ok x -> in_range l i /\ l !! position_of l i = Some x.
Proof.
  intros Hx. destruct (in_range_dec l i) as [Hi|Hi].
  - split; [exact Hi|].
    destruct (getitem_in_range l i Hi) as (y & Hy & Hl). congruence.
  - rewrite (getitem_out_of_range l i Hi) in Hx. discriminate.
Qed.

Lemma getitem_raise_inv {A : Type} (l : list A) (i : Z) (e : PyExc) :
  Py.getitem l i = Raise e -> e = IndexError /\ ~ in_range l i.
Proof.
  intros He. destruct (in_range_dec l i) as [Hi|Hi].
  - destruct (getitem_in_range l i Hi) as (y & Hy & _). congruence.
  - rewrite (getitem_out_of_range l i Hi) in He. split; [congruence|exact Hi].
Qed.

Lemma for_append_app {A B : Type} (body : A -> result B) (l1 l2 : list A) :
  Py.for_append body (l1 ++ l2) =
  (ys1 ← Py.for_append body l1;
   ys2 ← Py.for_append body l2;
   Ok (ys1 ++ ys2)).
Proof.
  induction l1 as [|x l1 IH]; simpl.
  - destruct (Py.for_append body l2); reflexivity.
  - destruct (body x) as [y|e]; simpl; [|reflexivity].
    rewrite IH. destruct (Py.for_append body l1) as [ys1|e]; simpl;
      [|reflexivity].
    destruct (Py.for_append body l2); reflexivity.
Qed.

Lemma for_append_ok {A B : Type} (body : A -> result B) (l : list A)
    (ys : list B) :
  Py.for_append body l = Ok ys <-> Forall2 (fun x y => body x = Ok y) l ys.
Proof.
  revert ys. induction l as [|x l IH]; intros ys; simpl.
  - split; [intros [= <-]; constructor|intros H; inversion H; reflexivity].
  - split.
    + destruct (body x) as [y|e] eqn:Hy; simpl; [|discriminate].
      destruct (Py.for_append body l) as [ys'|e]; simpl; [|discriminate].
      intros [= <-]. constructor; [exact Hy|]. apply IH. reflexivity.
    + intros H. inversion H as [|? y ? ys' Hy Hrest]; subst.
      rewrite Hy. simpl. apply IH in Hrest. rewrite Hrest. reflexivity.
Qed.

(** The loop raises what its first failing iteration raises. *)
Lemma for_append_first_failure {A B : Type} (body : A -> result B)
    (pre post : list A) (x : A) (e : PyExc) :
  (forall a, a ∈ pre -> returns (body a)) ->
  body x = Raise e ->
  Py.for_append body (pre ++ x :: post) = Raise e.
Proof.
  intros Hpre Hx. induction pre as [|a pre IH]; simpl.
  - rewrite Hx. reflexivity.
  - assert (Ha : returns (body a)) by (apply Hpre; left).
    destruct (body a) as [y|e']; [|destruct Ha]. simpl.
    rewrite IH; [reflexivity|]. intros b Hb. apply Hpre. right. exact Hb.
Qed.

Lemma for_append_total {A B : Type} (body : A -> result B) (l : list A) :
  (forall x, x ∈ l -> exists y, body x = Ok y) ->
  exists ys, Forall2 (fun x y => body x = Ok y) l ys.
Proof.
  induction l as [|x l IH]; intros Hall.
  - exists []. constructor.
  - destruct (Hall x) as [y Hy]; [left|].
    destruct IH as [ys Hys]; [intros a Ha; apply Hall; right; exact Ha|].
    exists (y :: ys). constructor; assumption.
Qed.

Lemma arange_lookup (n : Z) (i : nat) :
  (i < Z.to_nat n)%nat -> Py.arange n !! i = Some (Z.of_nat i).
Proof.
  intros Hi. unfold Py.arange. rewrite list_lookup_fmap, lookup_seq_lt by lia.
  reflexivity.
Qed.

Lemma arange_length (n : Z) : length (Py.arange n) = Z.to_nat n.
Proof. unfold Py.arange. rewrite length_map, length_seq. reflexivity. Qed.

(** ** [fetch_data] *)

(** X1: [fetch_data] returns exactly when the index is in range, as Python
    counts it, for the maps, the images and the captions; the element then
    holds the three items at that position and the index in decimal as its
    name.  Otherwise it raises [IndexError]. *)
Theorem fetch_data_in_range {M T C : Type} (index : Z)
    (coloc_maps : list (list M)) (image_tensor : list T) (captions : list C) :
  match fetch_data index coloc_maps image_tensor captions with
  | Ok element =>
      in_range coloc_maps index /\ in_range image_tensor index /\
      in_range captions index /\
      coloc_maps !! position_of coloc_maps index
        = Some (raw_coloc_map element) /\
      image_tensor !! position_of image_tensor index
        = Some (raw_image element) /\
      captions !! position_of captions index = Some (raw_caption element) /\
      raw_name element = PyText.str index
  | Raise e =>
      e = IndexError /\
      ~ (in_range coloc_maps index /\ in_range image_tensor index /\
         in_range captions index)
  end.
Proof.
  unfold fetch_data.
  destruct (Py.getitem coloc_maps index) as [m|e] eqn:Hm; simpl.
  2:{ apply getitem_raise_inv in Hm as [-> Hm]. tauto. }
  destruct (Py.getitem image_tensor index) as [t|e] eqn:Ht; simpl.
  2:{ apply getitem_raise_inv in Ht as [-> Ht]. tauto. }
  destruct (Py.getitem captions index) as [c|e] eqn:Hc; simpl.
  2:{ apply getitem_raise_inv in Hc as [-> Hc]. tauto. }
  apply getitem_ok_inv in Hm as [? ?], Ht as [? ?], Hc as [? ?].
  repeat (split; [assumption|]). reflexivity.
Qed.

Lemma fetch_data_name {M T C : Type} (index : Z) (coloc_maps : list (list M))
    (image_tensor : list T) (captions : list C) (element : RawElement M T C) :
  fetch_data index coloc_maps image_tensor captions = Ok element ->
  raw_name element = PyText.str index.
Proof.
  unfold fetch_data.
  destruct (Py.getitem coloc_maps index); simpl; [|discriminate].
  destruct (Py.getitem image_tensor index); simpl; [|discriminate].
  destruct (Py.getitem captions index); simpl; [|discriminate].
  intros [= <-]. reflexivity.
Qed.

(** X2: elements fetched at different indices have different names, also
    when the two indices stand for the same position. *)
Theorem fetch_data_names_distinct {M T C : Type} (i j : Z)
    (coloc_maps : list (list M)) (image_tensor : list T) (captions : list C)
    (e1 e2 : RawElement M T C) :
  fetch_data i coloc_maps image_tensor captions = Ok e1 ->
  fetch_data j coloc_maps image_tensor captions = Ok e2 ->
  i <> j -> raw_name e1 <> raw_name e2.
Proof.
  intros H1 H2 Hij Hname. apply Hij.
  rewrite (fetch_data_name _ _ _ _ _ H1), (fetch_data_name _ _ _ _ _ H2)
    in Hname.
  unfold PyText.str in Hname. exact (pretty_Z_inj _ _ Hname).
Qed.

(** X2 (witness): the last of three elements, fetched as [-1] and as [2]. *)
Lemma fetch_data_names_distinct_witness :
  raw_name (mkRaw [3] 30 "c" "-1") <> raw_name (mkRaw [3] 30 "c" "2").
Proof.
  apply (fetch_data_names_distinct (-1) 2 [[1]; [2]; [3]] [10; 20; 30]
           ["a"; "b"; "c"]).
  - vm_compute. reflexivity.
  - vm_compute. reflexivity.
  - lia.
Defined.

(** ** More on clipping *)

Lemma index_from_found (x : string) (l : list string) (a k : nat) :
  Py.index_from x l a = Ok k ->
  (a <= k)%nat /\ l !! (k - a)%nat = Some x /\ x ∉ take (k - a) l.
Proof.
  revert a. induction l as [|y l IH]; intros a; simpl; [discriminate|].
  destruct (String.eqb_spec y x) as [->|Hne].
  - intros [= <-]. rewrite Nat.sub_diag. simpl.
    repeat split; [lia|]. apply not_elem_of_nil.
  - intros Hk. apply IH in Hk as (Hle & Hl & Hnot).
    replace (k - a)%nat with (S (k - S a)) by lia. simpl.
    repeat split; [lia|exact Hl|].
    apply not_elem_of_cons. split; [congruence|exact Hnot].
Qed.

Lemma index_found (l : list string) (x : string) (k : nat) :
  Py.index l x = Ok k ->
  (k < length l)%nat /\ l !! k = Some x /\ x ∉ take k l.
Proof.
  intros Hk. apply index_from_found in Hk as (_ & Hl & Hnot).
  rewrite Nat.sub_0_r in Hl, Hnot.
  repeat split; [|exact Hl|exact Hnot]. apply lookup_lt_Some in Hl. exact Hl.
Qed.

Lemma index_raises_value_error (l : list string) (x : string) (e : PyExc) :
  Py.index l x = Raise e -> e = ValueError.
Proof.
  unfold Py.index. generalize 0%nat.
  induction l as [|y l IH]; intros a; simpl; [congruence|].
  destruct (String.eqb y x); [discriminate|]. apply IH.
Qed.

Section ClipMore.

Context {F Tensor Img : Type}.
Variable resize : list F -> list F.
Variable tensor2img : Tensor -> Img.

(** The outcome of [coco_element_processor], case by case. *)
Lemma coco_element_processor_outcome
    (element : RawElement (list F) Tensor (list string)) :
  coco_element_processor resize tensor2img element =
  match Py.index (raw_caption element) "<end>" with
  | Raise _ => Raise ValueError
  | Ok k =>
      if (k =? 0)%nat || (length (raw_coloc_map element) =? 0)%nat
      then Raise IndexError
      else if (k =? 1)%nat || (length (raw_coloc_map element) =? 1)%nat
      then Raise ValueError
      else Ok (mkElement (map resize (drop 1 (take k (raw_coloc_map element))))
                 (tensor2img (raw_image element))
                 (drop 1 (take k (raw_caption element))) (raw_name element))
  end.
Proof.
  unfold coco_element_processor.
  destruct (Py.index (raw_caption element) "<end>") as [k|e] eqn:Hk; simpl.
  2:{ apply index_raises_value_error in Hk. subst. reflexivity. }
  apply index_found in Hk as (Hlt & _ & _). unfold Py.del_from.
  destruct k as [|k]; [reflexivity|].
  destruct (raw_caption element) as [|c cap]; [simpl in Hlt; lia|].
  destruct (raw_coloc_map element) as [|m ms]; [reflexivity|]. simpl.
  unfold coloc_map_processor, np_stack. rewrite !drop_0.
  destruct k as [|k]; [reflexivity|].
  destruct ms as [|m' ms]; reflexivity.
Qed.

(** X3: [coco_element_processor] returns exactly when the end sentinel is
    first met at a position [k >= 2] and there are at least two maps.  It
    raises [IndexError] when the sentinel is at position 0 or, the sentinel
    being there, no map is given, and [ValueError] when there is no sentinel
    or nothing is left after clipping. *)
Theorem coco_element_processor_returns_iff
    (element : RawElement (list F) Tensor (list string)) :
  (returns (coco_element_processor resize tensor2img element) <->
   exists k, Py.index (raw_caption element) "<end>" = Ok k /\
             (2 <= k)%nat /\ (2 <= length (raw_coloc_map element))%nat) /\
  (forall k, Py.index (raw_caption element) "<end>" = Ok k ->
     k = 0%nat \/ raw_coloc_map element = [] ->
     coco_element_processor resize tensor2img element = Raise IndexError) /\
  (forall k, Py.index (raw_caption element) "<end>" = Ok k ->
     (1 <= k)%nat -> (1 <= length (raw_coloc_map element))%nat ->
     k = 1%nat \/ length (raw_coloc_map element) = 1%nat ->
     coco_element_processor resize tensor2img element = Raise ValueError).
Proof.
  rewrite coco_element_processor_outcome.
  destruct (Py.index (raw_caption element) "<end>") as [k|e].
  - split; [|split].
    + destruct (Nat.eqb_spec k 0), (Nat.eqb_spec (length (raw_coloc_map element)) 0),
        (Nat.eqb_spec k 1), (Nat.eqb_spec (length (raw_coloc_map element)) 1);
        simpl; split; try tauto;
        try (intros (k' & [= <-] & ? & ?); lia);
        intros _; exists k; repeat split; lia.
    + intros k' [= <-] [->|Hm]; [reflexivity|]. rewrite Hm. simpl.
      rewrite orb_true_r. reflexivity.
    + intros k' [= <-] Hk Hm Hone.
      destruct (Nat.eqb_spec k 0); [lia|].
      destruct (Nat.eqb_spec (length (raw_coloc_map element)) 0); [lia|].
      simpl. destruct Hone as [->| ->]; [reflexivity|].
      rewrite orb_true_r. reflexivity.
  - split; [|split]; [|discriminate|discriminate].
    simpl. split; [tauto|]. intros (k & Hk & _). discriminate.
Qed.

(** X4: a clipped caption holds no end sentinel, so that clipping is not
    idempotent: [coco_element_processor] raises [ValueError] on every element
    that carries an already clipped caption. *)
Theorem coco_clip_not_idempotent
    (element : RawElement (list F) Tensor (list string))
    (clipped : Element (list F) Img (list string)) :
  coco_element_processor resize tensor2img element = Ok clipped ->
  ("<end>" ∉ caption clipped) /\
  forall (maps : list (list F)) (img : Tensor) (nm : string),
    coco_element_processor resize tensor2img
      (mkRaw maps img (caption clipped) nm) = Raise ValueError.
Proof.
  rewrite coco_element_processor_outcome.
  destruct (Py.index (raw_caption element) "<end>") as [k|e] eqn:Hk;
    [|discriminate].
  destruct ((k =? 0)%nat || (length (raw_coloc_map element) =? 0)%nat);
    [discriminate|].
  destruct ((k =? 1)%nat || (length (raw_coloc_map element) =? 1)%nat);
    [discriminate|].
  intros [= <-]. simpl.
  apply index_found in Hk as (_ & _ & Hnot).
  assert (Hclipped : "<end>" ∉ drop 1 (take k (raw_caption element))).
  { intros Hin. apply Hnot. exact (subseteq_drop 1 _ _ Hin). }
  split; [exact Hclipped|].
  intros maps img nm. unfold coco_element_processor. simpl.
  rewrite (index_absent _ _ Hclipped). reflexivity.
Qed.

(** X5: when the element has a map for every token of its caption, clipping
    keeps the alignment: as many maps as tokens remain. *)
Theorem coco_clip_keeps_alignment
    (element : RawElement (list F) Tensor (list string))
    (clipped : Element (list F) Img (list string)) :
  (length (raw_caption element) <= length (raw_coloc_map element))%nat ->
  coco_element_processor resize tensor2img element = Ok clipped ->
  length (caption clipped) = length (coloc_map clipped).
Proof.
  intros Hlen. rewrite coco_element_processor_outcome.
  destruct (Py.index (raw_caption element) "<end>") as [k|e] eqn:Hk;
    [|discriminate].
  destruct ((k =? 0)%nat || (length (raw_coloc_map element) =? 0)%nat);
    [discriminate|].
  destruct ((k =? 1)%nat || (length (raw_coloc_map element) =? 1)%nat);
    [discriminate|].
  intros [= <-]. simpl.
  apply index_found in Hk as (Hlt & _ & _).
  rewrite length_map, !length_drop, !length_take. lia.
Qed.

(** X6: position 0 is dropped whatever it holds: the token and the map at
    position 0 have no influence on the result, and neither has any map
    from the position of the end sentinel on. *)
Theorem coco_clip_ignores_position_0 (t1 t2 : string) (m1 m2 : list F)
    (cap : list string) (maps tail1 tail2 : list (list F)) (img : Tensor)
    (nm : string) :
  t1 <> "<end>" -> t2 <> "<end>" ->
  length maps = length cap ->
  coco_element_processor resize tensor2img
    (mkRaw (m1 :: maps ++ tail1) img (t1 :: cap) nm) =
  coco_element_processor resize tensor2img
    (mkRaw (m2 :: maps ++ tail2) img (t2 :: cap) nm).
Proof.
  intros H1 H2 Hlen. unfold coco_element_processor, Py.index. simpl.
  destruct (String.eqb_spec t1 "<end>") as [?|_]; [contradiction|].
  destruct (String.eqb_spec t2 "<end>") as [?|_]; [contradiction|].
  destruct (Py.index_from "<end>" cap 1) as [k|e] eqn:Hk; [|reflexivity].
  simpl. apply index_from_found in Hk as (Hle & Hl & _).
  apply lookup_lt_Some in Hl. unfold Py.del_from.
  destruct k as [|k]; [lia|]. simpl.
  rewrite !take_app_le by lia. reflexivity.
Qed.

End ClipMore.

(** X5 (witness). *)
Lemma coco_clip_keeps_alignment_witness :
  length (caption (mkElement (M := list Q) [[2%Q]; [3%Q]] tt ["a"; "dog"] "0"))
  = length (coloc_map (mkElement (C := list string) [[2%Q]; [3%Q]] tt
                         ["a"; "dog"] "0")).
Proof.
  apply (coco_clip_keeps_alignment Sample.keep Sample.to_img
           (mkRaw [[1%Q]; [2%Q]; [3%Q]; [4%Q]] tt
              ["<start>"; "a"; "dog"; "<end>"] "0")).
  - simpl. lia.
  - reflexivity.
Defined.

(** X4 (witness). *)
Lemma coco_clip_not_idempotent_witness :
  ("<end>" ∉ ["a"; "dog"]) /\
  forall (maps : list (list Q)) (img : unit) (nm : string),
    coco_element_processor Sample.keep Sample.to_img
      (mkRaw maps img ["a"; "dog"] nm) = Raise ValueError.
Proof.
  apply (coco_clip_not_idempotent Sample.keep Sample.to_img
           (mkRaw [[1%Q]; [2%Q]; [3%Q]; [4%Q]] tt
              ["<start>"; "a"; "dog"; "<end>"] "0")
           (mkElement [[2%Q]; [3%Q]] tt ["a"; "dog"] "0")).
  reflexivity.
Defined.

(** X3 (witness): a caption whose end sentinel comes first. *)
Lemma coco_element_processor_returns_iff_witness :
  coco_element_processor Sample.keep Sample.to_img
    (mkRaw [[1%Q]; [2%Q]] tt ["<end>"; "a"] "0") = Raise IndexError.
Proof.
  apply (proj1 (proj2 (coco_element_processor_returns_iff Sample.keep
                         Sample.to_img
                         (mkRaw [[1%Q]; [2%Q]] tt ["<end>"; "a"] "0")))
           0%nat).
  - reflexivity.
  - left. reflexivity.
Defined.

(** X6 (witness). *)
Lemma coco_clip_ignores_position_0_witness :
  coco_element_processor Sample.keep Sample.to_img
    (mkRaw ([1%Q] :: [[2%Q]; [3%Q]] ++ []) tt ["<start>"; "a"; "<end>"] "0") =
  coco_element_processor Sample.keep Sample.to_img
    (mkRaw ([9%Q] :: [[2%Q]; [3%Q]] ++ [[7%Q]]) tt ["go"; "a"; "<end>"] "0").
Proof.
  apply (coco_clip_ignores_position_0 Sample.keep Sample.to_img "<start>" "go"
           [1%Q] [9%Q] ["a"; "<end>"] [[2%Q]; [3%Q]] [] [[7%Q]] tt "0").
  - discriminate.
  - discriminate.
  - reflexivity.
Defined.

(** ** More on phrase aggregation *)

Section AggregateMore.

Context {F : Type}.
Variable fzero : F.
Variables (fadd : F -> F -> F) (fdivn : F -> nat -> F).

Lemma getitem_elem_of {A : Type} (l : list A) (i : Z) (x : A) :
  Py.getitem l i = Ok x -> x ∈ l.
Proof.
  intros Hx. apply getitem_ok_inv in Hx as [_ Hx].
  eapply list_elem_of_lookup_2, Hx.
Qed.

Lemma collect_outcome (tok_caption : list string) (coloc_maps : list (list F))
    (position : list Z) :
  match collect tok_caption coloc_maps position with
  | Ok c =>
      positions_in_range tok_caption coloc_maps position /\
      Forall (fun m => m ∈ coloc_maps) c.2
  | Raise e =>
      e = IndexError /\ ~ positions_in_range tok_caption coloc_maps position
  end.
Proof.
  unfold positions_in_range.
  induction position as [|i position IH]; simpl; [split; constructor|].
  destruct (Py.getitem tok_caption i) as [w|e] eqn:Hw; simpl.
  2:{ apply getitem_raise_inv in Hw as [-> Hw]. split; [reflexivity|].
      intros H. apply Forall_cons in H as [[? ?] _]. contradiction. }
  destruct (Py.getitem coloc_maps i) as [m|e] eqn:Hm; simpl.
  2:{ apply getitem_raise_inv in Hm as [-> Hm]. split; [reflexivity|].
      intros H. apply Forall_cons in H as [[? ?] _]. contradiction. }
  destruct (collect tok_caption coloc_maps position) as [[ws ms]|e]; simpl.
  - destruct IH as [Hin Hms]. split.
    + constructor; [|exact Hin].
      split; [apply (getitem_ok_inv _ _ _ Hw)|apply (getitem_ok_inv _ _ _ Hm)].
    + constructor; [exact (getitem_elem_of _ _ _ Hm)|exact Hms].
  - destruct IH as [-> Hnot]. split; [reflexivity|].
    intros H. apply Forall_cons in H as [_ H]. contradiction.
Qed.

Lemma np_array_selected (n : nat) (coloc_maps ms : list (list F)) :
  uniform_shape n coloc_maps -> Forall (fun m => m ∈ coloc_maps) ms ->
  np_array ms = Ok ms.
Proof.
  intros Hn Hms. apply (np_array_uniform n).
  eapply Forall_impl; [exact Hms|]. intros m Hm.
  unfold uniform_shape in Hn. rewrite Forall_forall in Hn. apply Hn, Hm.
Qed.

(** Whenever [caption_parser] returns, both lists have one item per group. *)
Lemma caption_parser_lengths (tok_caption : list string)
    (coloc_maps : list (list F)) (index_list : list (list Z))
    (parsed : list (list string) * list (list F)) :
  caption_parser fzero fadd fdivn tok_caption coloc_maps index_list = Ok parsed ->
  length parsed.1 = length index_list /\ length parsed.2 = length index_list.
Proof.
  revert parsed. induction index_list as [|position rest IH]; intros parsed;
    simpl.
  - intros [= <-]. split; reflexivity.
  - destruct (collect tok_caption coloc_maps position) as [c|e]; simpl;
      [|discriminate].
    destruct (np_array c.2) as [rows|e]; simpl; [|discriminate].
    destruct (caption_parser fzero fadd fdivn tok_caption coloc_maps rest) as [r|e]; simpl;
      [|discriminate].
    intros [= <-]. simpl. destruct (IH r eq_refl) as [-> ->].
    split; reflexivity.
Qed.

(** X7: the groups are processed one after the other and independently:
    parsing two lists of groups put end to end gives the two results put
    end to end, and raises what the first failing list raises. *)
Theorem caption_parser_app (tok_caption : list string)
    (coloc_maps : list (list F)) (groups1 groups2 : list (list Z)) :
  caption_parser fzero fadd fdivn tok_caption coloc_maps (groups1 ++ groups2) =
  (r1 ← caption_parser fzero fadd fdivn tok_caption coloc_maps groups1;
   r2 ← caption_parser fzero fadd fdivn tok_caption coloc_maps groups2;
   Ok (r1.1 ++ r2.1, r1.2 ++ r2.2)).
Proof.
  induction groups1 as [|position rest IH]; simpl.
  - destruct (caption_parser fzero fadd fdivn tok_caption coloc_maps groups2) as [[pc pm]|e];
      reflexivity.
  - destruct (collect tok_caption coloc_maps position) as [c|e]; simpl;
      [|reflexivity].
    destruct (np_array c.2) as [rows|e]; simpl; [|reflexivity].
    rewrite IH.
    destruct (caption_parser fzero fadd fdivn tok_caption coloc_maps rest) as [r1|e]; simpl;
      [|reflexivity].
    destruct (caption_parser fzero fadd fdivn tok_caption coloc_maps groups2) as [r2|e]; reflexivity.
Qed.

(** X8: on token maps of one shape, [caption_parser] returns exactly when
    every index of every group is in range, as Python counts it, for both
    the caption and the maps; otherwise it raises [IndexError]: no position
    is skipped silently. *)
Theorem caption_parser_returns_iff (n : nat) (tok_caption : list string)
    (coloc_maps : list (list F)) (index_list : list (list Z)) :
  uniform_shape n coloc_maps ->
  match caption_parser fzero fadd fdivn tok_caption coloc_maps index_list with
  | Ok _ => Forall (positions_in_range tok_caption coloc_maps) index_list
  | Raise e =>
      e = IndexError /\
      ~ Forall (positions_in_range tok_caption coloc_maps) index_list
  end.
Proof.
  intros Hn. induction index_list as [|position rest IH]; simpl;
    [constructor|].
  pose proof (collect_outcome tok_caption coloc_maps position) as Hc.
  destruct (collect tok_caption coloc_maps position) as [c|e]; simpl.
  - destruct Hc as [Hin Hms].
    rewrite (np_array_selected n coloc_maps c.2 Hn Hms). simpl.
    destruct (caption_parser fzero fadd fdivn tok_caption coloc_maps rest) as [r|e]; simpl.
    + constructor; assumption.
    + destruct IH as [-> Hnot]. split; [reflexivity|].
      intros H. apply Forall_cons in H as [_ H]. contradiction.
  - destruct Hc as [-> Hnot]. split; [reflexivity|].
    intros H. apply Forall_cons in H as [H _]. contradiction.
Qed.

Lemma getitem_normalised {A : Type} (l : list A) (i : Z) :
  in_range l i -> Py.getitem l (Z.of_nat (position_of l i)) = Py.getitem l i.
Proof.
  unfold in_range, position_of, Py.getitem. intros Hi.
  destruct (Z.ltb_spec i 0) as [Hneg|Hpos].
  - rewrite Z2Nat.id by lia.
    destruct (Z.ltb_spec (i + Z.of_nat (length l)) 0) as [?|_]; [lia|].
    reflexivity.
  - rewrite Z2Nat.id by lia.
    destruct (Z.ltb_spec i 0) as [?|_]; [lia|]. reflexivity.
Qed.

(** X9: a negative index stands for a position counted from the end: with
    as many maps as tokens, replacing every index by the position it stands
    for does not change the result. *)
Theorem caption_parser_negative_indices (tok_caption : list string)
    (coloc_maps : list (list F)) (index_list : list (list Z)) :
  length coloc_maps = length tok_caption ->
  Forall (Forall (in_range tok_caption)) index_list ->
  caption_parser fzero fadd fdivn tok_caption coloc_maps
    (map (map (fun i => Z.of_nat (position_of tok_caption i))) index_list) =
  caption_parser fzero fadd fdivn tok_caption coloc_maps index_list.
Proof.
  intros Hlen Hall.
  induction Hall as [|position rest Hpos _ IH]; simpl; [reflexivity|].
  rewrite IH.
  replace (collect tok_caption coloc_maps
             (map (fun i => Z.of_nat (position_of tok_caption i)) position))
    with (collect tok_caption coloc_maps position); [reflexivity|].
  clear IH. induction Hpos as [|i position Hi _ IH]; simpl; [reflexivity|].
  rewrite <- IH, (getitem_normalised tok_caption i Hi).
  assert (Hi' : in_range coloc_maps i) by (unfold in_range in *; lia).
  replace (position_of tok_caption i) with (position_of coloc_maps i)
    by (unfold position_of; rewrite Hlen; reflexivity).
  rewrite (getitem_normalised coloc_maps i Hi'). reflexivity.
Qed.

End AggregateMore.

(** X8 (witness): the index 3 is out of range for three tokens. *)
Lemma caption_parser_returns_iff_witness :
  match caption_parser 0%Q Sample.qadd Sample.qdivn ["a"; "dog"; "runs"]
          [[1%Q; 2%Q]; [3%Q; 4%Q]; [5%Q; 6%Q]] [[0; 1]; [3]] with
  | Ok _ =>
      Forall (positions_in_range ["a"; "dog"; "runs"]
                [[1%Q; 2%Q]; [3%Q; 4%Q]; [5%Q; 6%Q]]) [[0; 1]; [3]]
  | Raise e =>
      e = IndexError /\
      ~ Forall (positions_in_range ["a"; "dog"; "runs"]
                  [[1%Q; 2%Q]; [3%Q; 4%Q]; [5%Q; 6%Q]]) [[0; 1]; [3]]
  end.
Proof.
  apply (caption_parser_returns_iff 0%Q Sample.qadd Sample.qdivn 2).
  repeat constructor.
Defined.

(** X9 (witness): the groups [[-1; 0]] and [[-3]] on three tokens. *)
Lemma caption_parser_negative_indices_witness :
  caption_parser 0%Q Sample.qadd Sample.qdivn ["a"; "dog"; "runs"]
    [[1%Q; 2%Q]; [3%Q; 4%Q]; [5%Q; 6%Q]]
    (map (map (fun i => Z.of_nat (position_of ["a"; "dog"; "runs"] i)))
       [[-1; 0]; [-3]]) =
  caption_parser 0%Q Sample.qadd Sample.qdivn ["a"; "dog"; "runs"]
    [[1%Q; 2%Q]; [3%Q; 4%Q]; [5%Q; 6%Q]] [[-1; 0]; [-3]].
Proof.
  apply (caption_parser_negative_indices 0%Q Sample.qadd Sample.qdivn).
  - reflexivity.
  - repeat constructor; unfold in_range; simpl; lia.
Defined.

(** ** [flickr_element_processor] *)

Section FlickrMore.

Context {F Tensor Img : Type}.
Variable fzero : F.
Variables (fadd : F -> F -> F) (fdivn : F -> nat -> F).
Variable resize : list F -> list F.
Variable tensor2img : Tensor -> Img.

(** X10: [flickr_element_processor] raises [KeyError] for a caption id that
    the caption data do not hold and [IndexError] for an element without
    maps, in either mode; in phrase mode it raises [ValueError] when no map
    is left after clipping. *)
Theorem flickr_element_processor_errors
    (element : RawElement (list F) Tensor string) (parse_mode : string)
    (data : gmap string CaptionData) :
  (data !! raw_caption element = None ->
   flickr_element_processor fzero fadd fdivn resize tensor2img element parse_mode data = Raise KeyError) /\
  (is_Some (data !! raw_caption element) -> raw_coloc_map element = [] ->
   flickr_element_processor fzero fadd fdivn resize tensor2img element parse_mode data = Raise IndexError) /\
  (forall cd, data !! raw_caption element = Some cd ->
     raw_coloc_map element <> [] ->
     take (length (parsed_caption cd)) (drop 1 (raw_coloc_map element)) = [] ->
     flickr_element_processor fzero fadd fdivn resize tensor2img element "phrase" data = Raise ValueError).
Proof.
  unfold flickr_element_processor. split; [|split].
  - intros ->. reflexivity.
  - intros [cd ->] ->. simpl. unfold Py.del_from. rewrite take_nil.
    reflexivity.
  - intros cd -> Hmaps Hkept. simpl. unfold Py.del_from.
    replace (length (parsed_caption cd) + 1)%nat
      with (S (length (parsed_caption cd))) by lia.
    destruct (raw_coloc_map element) as [|m ms]; [done|]. simpl in *.
    rewrite drop_0 in Hkept. rewrite Hkept. reflexivity.
Qed.

(** X11: in token mode (any mode but ["phrase"]) the element that comes out
    holds one caption phrase and one map per index group of the caption
    data, and there is at least one group. *)
Theorem flickr_token_mode_one_map_per_group
    (element : RawElement (list F) Tensor string) (parse_mode : string)
    (data : gmap string CaptionData)
    (out : Element (list F) Img (list (list string))) :
  parse_mode <> "phrase" ->
  flickr_element_processor fzero fadd fdivn resize tensor2img element parse_mode data = Ok out ->
  exists cd, data !! raw_caption element = Some cd /\
    caption_index cd <> [] /\
    length (caption out) = length (caption_index cd) /\
    length (coloc_map out) = length (caption_index cd).
Proof.
  intros Hmode. unfold flickr_element_processor.
  destruct (data !! raw_caption element) as [cd|]; simpl; [|discriminate].
  destruct (String.eqb_spec parse_mode "phrase") as [?|_]; [contradiction|].
  simpl.
  destruct (Py.del_first _) as [maps|e]; simpl; [|discriminate].
  destruct (caption_parser fzero fadd fdivn (tok_sent cd) maps
              (caption_index cd)) as [parsed|e] eqn:Hparsed; simpl;
    [|discriminate].
  apply caption_parser_lengths in Hparsed as [Hl1 Hl2].
  unfold coloc_map_processor, np_stack.
  destruct (map resize parsed.2) as [|r rs] eqn:Hmap; [discriminate|].
  intros [= <-]. simpl. exists cd. split; [reflexivity|].
  assert (Hlen : length parsed.2 = S (length rs)).
  { rewrite <- (length_map resize), Hmap. reflexivity. }
  repeat split.
  - intros Hnil. rewrite Hnil in Hl2. simpl in Hl2. lia.
  - exact Hl1.
  - simpl. lia.
Qed.

End FlickrMore.

(** X10 (witness): an unknown caption id. *)
Lemma flickr_element_processor_errors_witness :
  flickr_element_processor 0%Q Sample.qadd Sample.qdivn Sample.keep
    Sample.to_img (mkRaw [[1%Q]; [2%Q]] tt "18" "0") "phrase"
    {[ "17" := mkCaptionData [[0]] [["a"]] ["a"] ]} = Raise KeyError.
Proof.
  apply (proj1 (flickr_element_processor_errors 0%Q Sample.qadd Sample.qdivn
                  Sample.keep Sample.to_img (mkRaw [[1%Q]; [2%Q]] tt "18" "0")
                  "phrase" {[ "17" := mkCaptionData [[0]] [["a"]] ["a"] ]})).
  apply lookup_singleton_ne. discriminate.
Defined.

(** X11 (witness): two tokens in one group. *)
Lemma flickr_token_mode_one_map_per_group_witness :
  exists cd,
    ({[ "17" := mkCaptionData [[0; 1]] [["a"; "dog"]] ["a"; "dog"] ]}
       : gmap string CaptionData) !! "17" = Some cd /\
    caption_index cd <> [] /\
    length [["a"; "dog"]] = length (caption_index cd) /\
    length [[(5 # 2)%Q]] = length (caption_index cd).
Proof.
  apply (flickr_token_mode_one_map_per_group 0%Q Sample.qadd Sample.qdivn
           Sample.keep Sample.to_img
           (mkRaw [[1%Q]; [2%Q]; [3%Q]; [4%Q]] tt "17" "0") "tokens"
           {[ "17" := mkCaptionData [[0; 1]] [["a"; "dog"]] ["a"; "dog"] ]}
           (mkElement [[(5 # 2)%Q]] tt [["a"; "dog"]] "0")).
  - discriminate.
  - vm_compute. reflexivity.
Defined.

(** ** [list2string] and [phrase_detokenizer] *)

(** X12: [phrase_detokenizer] returns one string per phrase, the tokens of
    the phrase joined by blanks, when every item is a list of tokens, and
    raises [AssertionError] when an item is a string. *)
Theorem phrase_detokenizer_outcome (caption : list PyText.obj) :
  match phrase_detokenizer caption with
  | Ok new_caption =>
      Forall2 (fun phrase s =>
                 exists l, phrase = PyText.List l /\ s = PyText.join " " l)
        caption new_caption
  | Raise e => e = AssertionError /\ exists s, PyText.Str s ∈ caption
  end.
Proof.
  unfold phrase_detokenizer.
  induction caption as [|phrase caption IH]; simpl; [constructor|].
  destruct phrase as [s|l]; simpl.
  - split; [reflexivity|]. exists s. left.
  - destruct (Py.for_append list2string caption) as [out|e]; simpl.
    + constructor; [eauto|exact IH].
    + destruct IH as [-> [s Hs]]. split; [reflexivity|]. exists s. right.
      exact Hs.
Qed.

Lemma append_blank_inj (x y r s : string) :
  no_space x -> no_space y ->
  String.append x (String.append " " r) = String.append y (String.append " " s) ->
  x = y /\ r = s.
Proof.
  revert y. induction x as [|a x IH]; intros [|b y] Hx Hy Heq; cbn in Heq.
  - injection Heq as Htail. split; [reflexivity|exact Htail].
  - injection Heq as Hhead Htail. destruct Hy as [Hy _]. congruence.
  - injection Heq as Hhead Htail. destruct Hx as [Hx _]. congruence.
  - injection Heq as Hhead Htail. destruct Hx as [_ Hx], Hy as [_ Hy].
    destruct (IH y Hx Hy Htail) as [-> ->]. subst. split; reflexivity.
Qed.

Lemma no_space_not_blank (x y s : string) :
  no_space x -> x <> String.append y (String.append " " s).
Proof.
  revert x. induction y as [|b y IH]; intros [|a x] Hx Heq; cbn in Heq;
    try discriminate Heq; injection Heq as Hhead Htail.
  - destruct Hx as [Hx _]. congruence.
  - destruct Hx as [_ Hx]. exact (IH x Hx Htail).
Qed.

(** X13: on non-empty phrases whose tokens hold no blank, [list2string]
    loses nothing: two phrases with the same string are the same phrase. *)
Theorem list2string_injective (l1 l2 : list string) (s : string) :
  l1 <> [] -> l2 <> [] -> Forall no_space l1 -> Forall no_space l2 ->
  list2string (PyText.List l1) = Ok s ->
  list2string (PyText.List l2) = Ok s ->
  l1 = l2.
Proof.
  intros H1 H2 Hs1 Hs2 [= <-] [= Heq]. symmetry in Heq.
  revert l2 H1 H2 Hs2 Heq.
  induction Hs1 as [|x l1 Hx Hs1 IH]; intros l2 H1 H2 Hs2 Heq; [done|].
  destruct Hs2 as [|y l2 Hy Hs2]; [done|].
  destruct l1 as [|x' l1], l2 as [|y' l2].
  - simpl in Heq. congruence.
  - exfalso. exact (no_space_not_blank x y _ Hx Heq).
  - exfalso. symmetry in Heq. exact (no_space_not_blank y x _ Hy Heq).
  - change (String.append x (String.append " " (PyText.join " " (x' :: l1))) =
            String.append y (String.append " " (PyText.join " " (y' :: l2))))
      in Heq.
    apply append_blank_inj in Heq as [-> Heq]; [|assumption|assumption].
    f_equal. apply IH; [discriminate|discriminate|exact Hs2|exact Heq].
Qed.

(** X13 (witness). *)
Lemma list2string_injective_witness : ["a"; "dog"] = ["a"; "dog"].
Proof.
  apply (list2string_injective ["a"; "dog"] ["a"; "dog"] "a dog").
  - discriminate.
  - discriminate.
  - repeat constructor; discriminate.
  - repeat constructor; discriminate.
  - reflexivity.
  - reflexivity.
Defined.

(** ** [mask_viz] *)

Section MaskVizProps.

Context {F BwImg Phrase : Type}.
Variable resize : list F -> list F.

Lemma mask_viz_body_ok (mask_list : list (list F)) (caption : list Phrase)
    (bw_img : BwImg) (i : nat) (m : list F) (c : Phrase) :
  mask_list !! i = Some m -> caption !! i = Some c ->
  mask_viz_body resize mask_list caption bw_img (Z.of_nat i) =
  Ok (mkMaskPlot (Z.of_nat i + 1) bw_img (resize m) c).
Proof.
  intros Hm Hc. unfold mask_viz_body.
  destruct (getitem_valid caption (Z.of_nat i)) as (c' & -> & Hc').
  { apply lookup_lt_Some in Hc. lia. }
  destruct (getitem_valid mask_list (Z.of_nat i)) as (m' & -> & Hm').
  { apply lookup_lt_Some in Hm. lia. }
  rewrite Nat2Z.id in Hc', Hm'. simpl. congruence.
Qed.

(** X14: [mask_viz] draws its figure exactly when the caption has a phrase
    for every mask: the grid then has one row and one column more than
    there are masks, the plot of mask [i] sits at position [i + 1] with the
    resized mask and the phrase [i], and the figure is saved only under
    [save_flag].  With fewer phrases than masks it raises [IndexError]. *)
Theorem mask_viz_outcome (mask_list : list (list F)) (caption : list Phrase)
    (bw_img : BwImg) (save_flag : bool) (save_name : string) :
  ((length mask_list <= length caption)%nat ->
   exists plots,
     mask_viz resize mask_list caption bw_img save_flag save_name =
       Ok (mkFigure 1 (Z.of_nat (length mask_list) + 1) plots
             (if save_flag then Some save_name else None)) /\
     length plots = length mask_list /\
     forall i m c, mask_list !! i = Some m -> caption !! i = Some c ->
       plots !! i = Some (mkMaskPlot (Z.of_nat i + 1) bw_img (resize m) c)) /\
  ((length caption < length mask_list)%nat ->
   mask_viz resize mask_list caption bw_img save_flag save_name =
     Raise IndexError).
Proof.
  unfold mask_viz. split.
  - intros Hlen.
    assert (Hplots : exists plots,
      Forall2 (fun id p => mask_viz_body resize mask_list caption bw_img id
                           = Ok p)
        (Py.arange (Z.of_nat (length mask_list))) plots).
    { apply for_append_total. intros id Hid. apply elem_of_arange in Hid.
      destruct (lookup_lt_is_Some_2 caption (Z.to_nat id)) as [c Hc]; [lia|].
      destruct (lookup_lt_is_Some_2 mask_list (Z.to_nat id)) as [m Hm]; [lia|].
      replace id with (Z.of_nat (Z.to_nat id)) by lia.
      rewrite (mask_viz_body_ok _ _ _ _ _ _ Hm Hc). eauto. }
    destruct Hplots as [plots Hplots].
    rewrite (proj2 (for_append_ok _ _ _) Hplots). simpl.
    exists plots. split; [reflexivity|]. split.
    + rewrite <- (Forall2_length _ _ _ Hplots), arange_length. lia.
    + intros i m c Hm Hc.
      assert (Hi : (i < Z.to_nat (Z.of_nat (length mask_list)))%nat).
      { apply lookup_lt_Some in Hm. lia. }
      destruct (Forall2_lookup_l _ _ _ _ _ Hplots (arange_lookup _ _ Hi))
        as (p & Hp & Hbody).
      rewrite (mask_viz_body_ok _ _ _ _ _ _ Hm Hc) in Hbody. congruence.
  - intros Hlen.
    destruct (arange_split (Z.of_nat (length mask_list))
                (Z.of_nat (length caption))) as [post ->]; [lia|].
    rewrite (for_append_first_failure _ _ _ _ IndexError); [reflexivity| |].
    + intros id Hid. apply elem_of_arange in Hid.
      destruct (lookup_lt_is_Some_2 caption (Z.to_nat id)) as [c Hc]; [lia|].
      destruct (lookup_lt_is_Some_2 mask_list (Z.to_nat id)) as [m Hm]; [lia|].
      replace id with (Z.of_nat (Z.to_nat id)) by lia.
      rewrite (mask_viz_body_ok _ _ _ _ _ _ Hm Hc). exact I.
    + unfold mask_viz_body.
      rewrite (getitem_out_of_range caption); [reflexivity|].
      unfold in_range. lia.
Qed.

End MaskVizProps.

(** X14 (witness): two masks and the phrases of a three-phrase caption. *)
Lemma mask_viz_outcome_witness :
  exists plots,
    mask_viz Sample.keep [[1%Q]; [2%Q]] ["a"; "dog"; "runs"] tt true "out.png"
      = Ok (mkFigure 1 (Z.of_nat 2 + 1) plots (Some "out.png")) /\
    length plots = 2%nat /\
    forall i m c, [[1%Q]; [2%Q]] !! i = Some m ->
      ["a"; "dog"; "runs"] !! i = Some c ->
      plots !! i = Some (mkMaskPlot (Z.of_nat i + 1) tt (Sample.keep m) c).
Proof.
  apply (proj1 (mask_viz_outcome Sample.keep [[1%Q]; [2%Q]]
                  ["a"; "dog"; "runs"] tt true "out.png")).
  simpl. lia.
Defined.

(** ** The [GenomeViz] object *)

Section GenomeVizProps.

Context {Raw Elem Score Thresh : Type}.
Variable fetch_data_genome : Z -> result Raw.
Variable genome_element_processor : Raw -> result Elem.
Variable hit_score_genome : Elem -> result Score.
Variable caption_id : Elem -> string.

(** X15: after a [__getitem__] that returned, [__call__] renders the element
    just fetched, under the file name [caption_id + ".png"] whatever [name]
    it is given, with the segmentation view exactly under [seg_flag], and
    prints the score of that element. *)
Theorem GenomeViz_call_after_getitem (st st' : VizState Elem Score)
    (index : Z) (element : Elem) (score : Score) (save_flag seg_flag : bool)
    (thresh : Thresh) (name : string) :
  GenomeViz_getitem fetch_data_genome genome_element_processor
    hit_score_genome false st index = (st', Ok (element, score)) ->
  GenomeViz_call (Thresh := Thresh) caption_id st' save_flag seg_flag thresh name =
  (Some (if seg_flag
         then SegVizGenome element thresh save_flag
                (PyText.concat (caption_id element) ".png")
         else MaskVizGenome element save_flag
                (PyText.concat (caption_id element) ".png")),
   Ok score).
Proof.
  unfold GenomeViz_getitem, GenomeViz_call.
  destruct (fetch_data_genome index) as [raw|e]; [|discriminate].
  destruct (genome_element_processor raw) as [el|e]; [|discriminate].
  destruct (hit_score_genome el) as [sc|e]; [|discriminate].
  intros [= <- <- <-]. reflexivity.
Qed.

(** X16: a [__getitem__] that fails before the element is processed leaves
    the object as it was; one that fails in scoring has already replaced
    the element and leaves the score of the element before, so that
    [__call__] then renders the new element with the old score (or raises
    [AttributeError] after rendering, when there is none). *)
Theorem GenomeViz_getitem_failures (st : VizState Elem Score) (index : Z)
    (e : PyExc) :
  (fetch_data_genome index = Raise e -> GenomeViz_getitem fetch_data_genome genome_element_processor
    hit_score_genome false st index = (st, Raise e)) /\
  (forall raw, fetch_data_genome index = Ok raw ->
     genome_element_processor raw = Raise e ->
     GenomeViz_getitem fetch_data_genome genome_element_processor
    hit_score_genome false st index = (st, Raise e)) /\
  (forall raw element, fetch_data_genome index = Ok raw ->
     genome_element_processor raw = Ok element ->
     hit_score_genome element = Raise e ->
     GenomeViz_getitem fetch_data_genome genome_element_processor
    hit_score_genome false st index =
       (mkVizState (Some element) (st_score st), Raise e) /\
     forall save_flag thresh name,
       GenomeViz_call (Thresh := Thresh) caption_id (mkVizState (Some element) (st_score st)) save_flag false thresh
         name =
       (Some (MaskVizGenome element save_flag
                (PyText.concat (caption_id element) ".png")),
        match st_score st with
        | Some old => Ok old
        | None => Raise AttributeError
        end)).
Proof.
  unfold GenomeViz_getitem, GenomeViz_call. split; [|split].
  - intros ->. reflexivity.
  - intros raw -> ->. reflexivity.
  - intros raw element -> -> ->. split; reflexivity.
Qed.

End GenomeVizProps.

(** X15 (witness): elements are numbers, scored by their parity. *)
Lemma GenomeViz_call_after_getitem_witness :
  GenomeViz_call (Thresh := Q) (fun el : Z => PyText.str el)
    (mkVizState (Some 4) (Some 0)) true true (1 # 2)%Q "ignored.png" =
  (Some (SegVizGenome 4 (1 # 2)%Q true "4.png"), Ok 0).
Proof.
  exact (GenomeViz_call_after_getitem (fun i => Ok i) (fun raw => Ok (2 * raw))
           (fun el => Ok (el mod 2)) (fun el : Z => PyText.str el)
           (mkVizState None None) (mkVizState (Some 4) (Some 0)) 2 4 0
           true true (1 # 2)%Q "ignored.png" eq_refl).
Defined.

(** X16 (witness): scoring fails for the element 4 after the element 3 was
    scored 1. *)
Lemma GenomeViz_getitem_failures_witness :
  GenomeViz_getitem (fun i => Ok i) (fun raw => Ok (2 * raw))
    (fun el : Z => if el =? 4 then Raise KeyError else Ok 1) false
    (mkVizState (Some 3) (Some 1)) 2 =
    (mkVizState (Some 4) (Some 1), Raise KeyError) /\
  forall save_flag (thresh : Q) name,
    GenomeViz_call (fun el : Z => PyText.str el)
      (mkVizState (Some 4) (Some 1)) save_flag false thresh name =
    (Some (MaskVizGenome 4 save_flag "4.png"), Ok 1).
Proof.
  exact (proj2 (proj2 (GenomeViz_getitem_failures (Thresh := Q)
                         (fun i => Ok i) (fun raw => Ok (2 * raw))
                         (fun el : Z => if el =? 4 then Raise KeyError else Ok 1)
                         (fun el : Z => PyText.str el)
                         (mkVizState (Some 3) (Some 1)) 2 KeyError)) 2 4
           eq_refl eq_refl eq_refl).
Defined.

(** ** More on the evaluation runner *)

Section LocEvalMore.

Context {Example ColocMap Elem : Type}.
Variable gen_coloc_maps_matchmap : Example -> result ColocMap.
Variable gen_coloc_maps_phrase : Example -> result ColocMap.
Variable genome_element : Example -> ColocMap -> result Elem.
Variable hit_score_genome : Elem -> result Z.


Lemma sum_bounds (data : list Z) (a : Z) :
  Forall (fun s => 0 <= s <= 1) data ->
  a <= fold_left Z.add data a <= a + Z.of_nat (length data).
Proof.
  intros Hdata. revert a. induction Hdata as [|s data Hs _ IH]; intros a; simpl.
  - lia.
  - specialize (IH (a + s)). lia.
Qed.

Lemma mean_bounds (data : list Z) (m : Q) :
  Forall (fun s => 0 <= s <= 1) data -> Py.mean data = Ok m ->
  (0 <= m <= 1)%Q.
Proof.
  intros Hdata Hmean. pose proof (sum_bounds data 0 Hdata) as Hsum.
  assert (Hlen : (0 < length data)%nat).
  { destruct data; [discriminate Hmean|simpl; lia]. }
  assert (Hm : m = Qred (Qmake (fold_left Z.add data 0)
                           (Pos.of_nat (length data)))).
  { destruct data; [discriminate Hmean|]. unfold Py.mean in Hmean.
    congruence. }
  subst m. rewrite Qred_correct. unfold Qle. cbn [Qnum Qden].
  assert (Hpos : Z.pos (Pos.of_nat (length data)) = Z.of_nat (length data)).
  { rewrite <- (Nat2Pos.id (length data)) at 2 by lia.
    rewrite positive_nat_Z. reflexivity. }
  rewrite Hpos. lia.
Qed.

(** X18: when every hit score is 0 or 1, the mean score that [loc_eval]
    returns lies between 0 and 1. *)
Theorem loc_eval_mean_between_0_and_1 (self : GenomeViz Example) (last : Z)
    (score_list : list Z) (m : Q) :
  (forall i s,
     score_example gen_coloc_maps_matchmap gen_coloc_maps_phrase
       genome_element hit_score_genome self i = Ok s -> 0 <= s <= 1) ->
  (loc_eval gen_coloc_maps_matchmap gen_coloc_maps_phrase genome_element
     hit_score_genome self last).2 = Ok (score_list, m) ->
  (0 <= m <= 1)%Q.
Proof.
  intros Hhit. unfold loc_eval. simpl.
  destruct (loc_eval_loop gen_coloc_maps_matchmap gen_coloc_maps_phrase
              genome_element hit_score_genome self (Py.arange last) 0 [] [])
    as [[out n'] [scores'|e]] eqn:Hloop; simpl; [|discriminate].
  destruct (Py.mean scores') as [m'|e] eqn:Hmean; simpl; [|discriminate].
  intros [= <- <-].
  apply loc_eval_loop_ok_inv in Hloop
    as (scores & lines & -> & _ & _ & Hscores & _).
  simpl in Hmean. apply (mean_bounds scores); [|exact Hmean].
  clear Hmean. induction Hscores as [|i s indices scores Hs _ IH];
    constructor; [exact (Hhit i s Hs)|exact IH].
Qed.

(** X19: a count [last <= 0] is taken as no example at all: nothing is
    scored or printed, the bar stands at 0 of 0 and [StatisticsError] is
    raised. *)
Theorem loc_eval_nonpositive_count (self : GenomeViz Example) (last : Z) :
  last <= 0 ->
  loc_eval gen_coloc_maps_matchmap gen_coloc_maps_phrase genome_element
    hit_score_genome self last = ([], mkBar 0 0, Raise StatisticsError).
Proof.
  intros Hlast. unfold loc_eval, Py.arange.
  replace (Z.to_nat last) with 0%nat by lia. reflexivity.
Qed.

End LocEvalMore.

Lemma loc_eval_loop_ext {Example C1 E1 C2 E2 : Type}
    (mm1 ph1 : Example -> result C1) (ge1 : Example -> C1 -> result E1)
    (hs1 : E1 -> result Z)
    (mm2 ph2 : Example -> result C2) (ge2 : Example -> C2 -> result E2)
    (hs2 : E2 -> result Z)
    (self1 self2 : GenomeViz Example) (indices : list Z) :
  (forall i, score_example mm1 ph1 ge1 hs1 self1 i
             = score_example mm2 ph2 ge2 hs2 self2 i) ->
  forall n score_list printed,
    loc_eval_loop mm1 ph1 ge1 hs1 self1 indices n score_list printed =
    loc_eval_loop mm2 ph2 ge2 hs2 self2 indices n score_list printed.
Proof.
  intros Hext. induction indices as [|index indices IH];
    intros n score_list printed; simpl; [reflexivity|].
  rewrite Hext. destruct (score_example mm2 ph2 ge2 hs2 self2 index) as [s|e];
    [|reflexivity].
  destruct (index mod 100 =? 0); [|apply IH].
  destruct (Py.mean (score_list ++ [s])); [apply IH|reflexivity].
Qed.

Lemma loc_eval_ext {Example C1 E1 C2 E2 : Type}
    (mm1 ph1 : Example -> result C1) (ge1 : Example -> C1 -> result E1)
    (hs1 : E1 -> result Z)
    (mm2 ph2 : Example -> result C2) (ge2 : Example -> C2 -> result E2)
    (hs2 : E2 -> result Z)
    (self1 self2 : GenomeViz Example) (last : Z) :
  (forall i, score_example mm1 ph1 ge1 hs1 self1 i
             = score_example mm2 ph2 ge2 hs2 self2 i) ->
  loc_eval mm1 ph1 ge1 hs1 self1 last = loc_eval mm2 ph2 ge2 hs2 self2 last.
Proof.
  intros Hext. unfold loc_eval.
  rewrite (loc_eval_loop_ext mm1 ph1 ge1 hs1 mm2 ph2 ge2 hs2 self1 self2 _ Hext).
  reflexivity.
Qed.

Section ParseMode.

Context {Example ColocMap Elem : Type}.
Variable gen_coloc_maps_matchmap : Example -> result ColocMap.
Variable gen_coloc_maps_phrase : Example -> result ColocMap.
Variable genome_element : Example -> ColocMap -> result Elem.
Variable hit_score_genome : Elem -> result Z.

(** X20: only the parse mode ["matchmap"] selects the match-map generator.
    In that mode the run is the run in which the match-map generator also
    stands in for the phrase generator; with any other string, whatever it
    is, the run is the run of the mode ["phrase"], in which the phrase
    generator may as well stand in for the match-map generator. *)
Theorem loc_eval_other_modes_are_phrase (eval_mode : bool)
    (parse_mode : string) (ds : option (Z -> result Example)) (last : Z) :
  loc_eval gen_coloc_maps_matchmap gen_coloc_maps_phrase genome_element
    hit_score_genome (mkGenomeViz eval_mode "matchmap" ds) last =
  loc_eval gen_coloc_maps_matchmap gen_coloc_maps_matchmap genome_element
    hit_score_genome (mkGenomeViz eval_mode "matchmap" ds) last /\
  (parse_mode <> "matchmap" ->
   loc_eval gen_coloc_maps_matchmap gen_coloc_maps_phrase genome_element
     hit_score_genome (mkGenomeViz eval_mode parse_mode ds) last =
   loc_eval gen_coloc_maps_matchmap gen_coloc_maps_phrase genome_element
     hit_score_genome (mkGenomeViz eval_mode "phrase" ds) last /\
   loc_eval gen_coloc_maps_matchmap gen_coloc_maps_phrase genome_element
     hit_score_genome (mkGenomeViz eval_mode parse_mode ds) last =
   loc_eval gen_coloc_maps_phrase gen_coloc_maps_phrase genome_element
     hit_score_genome (mkGenomeViz eval_mode parse_mode ds) last).
Proof.
  split; [apply loc_eval_ext; intros i; reflexivity|].
  intros Hmode. split; apply loc_eval_ext; intros i;
    unfold score_example; simpl;
    destruct (String.eqb_spec parse_mode "matchmap") as [?|_];
    try contradiction; reflexivity.
Qed.

(** X21: an object built outside evaluation mode has no dataset:
    [loc_eval] over one example or more raises [AttributeError] before
    anything is scored or printed, the bar at 0. *)
Theorem loc_eval_outside_eval_mode (loader_dataset : Z -> result Example)
    (parse_mode : string) (last : Z) :
  0 < last ->
  loc_eval gen_coloc_maps_matchmap gen_coloc_maps_phrase genome_element
    hit_score_genome (GenomeViz_init loader_dataset false parse_mode) last =
  ([], mkBar 0 last, Raise AttributeError).
Proof.
  intros Hlast. unfold loc_eval.
  assert (Htotal : Z.of_nat (length (Py.arange last)) = last).
  { rewrite arange_length. lia. }
  rewrite Htotal.
  destruct (arange_split last 0) as [post ->]; [lia|]. reflexivity.
Qed.

End ParseMode.


(** X18 (witness). *)
Lemma loc_eval_mean_between_0_and_1_witness : (0 <= 1 <= 1)%Q.
Proof.
  apply (loc_eval_mean_between_0_and_1 Sample.gen_map Sample.gen_map
           Sample.element_of Sample.hit (Sample.viz_failing_at 7) 3
           [1; 1; 1] 1%Q).
  - intros i s. unfold score_example, Sample.viz_failing_at. simpl.
    destruct (i =? 7); simpl; [discriminate|]. intros [= <-]. lia.
  - reflexivity.
Defined.

(** X19 (witness). *)
Lemma loc_eval_nonpositive_count_witness :
  loc_eval Sample.gen_map Sample.gen_map Sample.element_of Sample.hit
    (Sample.viz_failing_at 7) (-3) = ([], mkBar 0 0, Raise StatisticsError).
Proof.
  apply (loc_eval_nonpositive_count Sample.gen_map Sample.gen_map
           Sample.element_of Sample.hit (Sample.viz_failing_at 7) (-3)).
  lia.
Defined.

(** X20 (witness): a misspelt mode, with a match-map generator that fails
    and a phrase generator that does not. *)
Lemma loc_eval_other_modes_are_phrase_witness :
  loc_eval (fun _ : Z => Raise TypeError) Sample.gen_map Sample.element_of
    Sample.hit (mkGenomeViz true "match_map" (Some (fun i => Ok i))) 3 =
  loc_eval (fun _ : Z => Raise TypeError) Sample.gen_map Sample.element_of
    Sample.hit (mkGenomeViz true "phrase" (Some (fun i => Ok i))) 3 /\
  loc_eval (fun _ : Z => Raise TypeError) Sample.gen_map Sample.element_of
    Sample.hit (mkGenomeViz true "match_map" (Some (fun i => Ok i))) 3 =
  loc_eval Sample.gen_map Sample.gen_map Sample.element_of
    Sample.hit (mkGenomeViz true "match_map" (Some (fun i => Ok i))) 3.
Proof.
  apply (proj2 (loc_eval_other_modes_are_phrase
                  (fun _ : Z => Raise TypeError) Sample.gen_map
                  Sample.element_of Sample.hit true "match_map"
                  (Some (fun i => Ok i)) 3)).
  discriminate.
Defined.

(** The two modes told apart by that pair of generators. *)
Example loc_eval_modes_differ :
  loc_eval (fun _ : Z => Raise TypeError) Sample.gen_map Sample.element_of
    Sample.hit (mkGenomeViz true "matchmap" (Some (fun i => Ok i))) 3 =
    ([], mkBar 0 3, Raise TypeError) /\
  loc_eval (fun _ : Z => Raise TypeError) Sample.gen_map Sample.element_of
    Sample.hit (mkGenomeViz true "phrase" (Some (fun i => Ok i))) 3 =
    ([mkProgress 0 1 1%Q], mkBar 3 3, Ok ([1; 1; 1], 1%Q)).
Proof. split; reflexivity. Qed.

(** X21 (witness). *)
Lemma loc_eval_outside_eval_mode_witness :
  loc_eval Sample.gen_map Sample.gen_map Sample.element_of Sample.hit
    (GenomeViz_init (fun i => Ok i) false "matchmap") 2 =
  ([], mkBar 0 2, Raise AttributeError).
Proof.
  apply (loc_eval_outside_eval_mode Sample.gen_map Sample.gen_map
           Sample.element_of Sample.hit (fun i => Ok i) "matchmap" 2).
  lia.
Defined.

(** ** Paths *)

Lemma append_cons (x : ascii) (a b : string) :
  String.append (String x a) b = String x (String.append a b).
Proof. reflexivity. Qed.

Lemma append_assoc (a b c : string) :
  String.append (String.append a b) c = String.append a (String.append b c).
Proof.
  induction a as [|x a IH]; [reflexivity|].
  rewrite !append_cons, IH. reflexivity.
Qed.

Lemma append_empty_r (a : string) : String.append a "" = a.
Proof.
  induction a as [|x a IH]; [reflexivity|]. rewrite append_cons, IH.
  reflexivity.
Qed.

Lemma append_eq_empty (a b : string) :
  String.append a b = "" -> a = "" /\ b = "".
Proof.
  destruct a; [intros H; split; [reflexivity|exact H]|].
  rewrite append_cons. discriminate.
Qed.

Lemma starts_with_sep_append (a b : string) :
  a <> "" ->
  Py.starts_with_sep (String.append a b) = Py.starts_with_sep a.
Proof. destruct a; [congruence|reflexivity]. Qed.

Lemma ends_with_sep_append (a b : string) :
  b <> "" -> Py.ends_with_sep (String.append a b) = Py.ends_with_sep b.
Proof.
  intros Hb. induction a as [|x a IH]; [reflexivity|].
  rewrite append_cons. cbn [Py.ends_with_sep].
  destruct (String.append a b) eqn:Hab; [|exact IH].
  apply append_eq_empty in Hab as [_ ?]. contradiction.
Qed.

Lemma join_step_relative (a p : string) :
  Py.starts_with_sep p = false ->
  Py.join_step a p = String.append (with_sep a) p.
Proof.
  intros Hp. unfold Py.join_step, with_sep. rewrite Hp.
  destruct (String.eqb a "" || Py.ends_with_sep a); [reflexivity|].
  rewrite append_assoc. reflexivity.
Qed.

Lemma with_sep_relative (p : string) :
  relative p -> relative (with_sep p).
Proof.
  intros [Hne Hrel]. unfold with_sep.
  destruct (String.eqb p "" || Py.ends_with_sep p); [split; assumption|].
  split.
  - intros H. apply append_eq_empty in H as [? _]. contradiction.
  - rewrite starts_with_sep_append by exact Hne. exact Hrel.
Qed.

Lemma with_sep_append (a p : string) :
  p <> "" ->
  with_sep (String.append a p) = String.append a (with_sep p).
Proof.
  intros Hp. unfold with_sep.
  rewrite (ends_with_sep_append a p Hp).
  destruct (String.eqb_spec (String.append a p) "") as [H|_].
  { apply append_eq_empty in H as [_ ?]. contradiction. }
  destruct (String.eqb_spec p "") as [?|_]; [contradiction|]. simpl.
  destruct (Py.ends_with_sep p); [reflexivity|]. apply append_assoc.
Qed.

Lemma join_step_keeps_relative (p c : string) :
  relative p -> Py.starts_with_sep c = false -> relative (Py.join_step p c).
Proof.
  intros Hp Hc. rewrite (join_step_relative p c Hc).
  destruct (with_sep_relative p Hp) as [Hne Hrel]. split.
  - intros H. apply append_eq_empty in H as [? _]. contradiction.
  - rewrite starts_with_sep_append by exact Hne. exact Hrel.
Qed.

(** Joining a relative path to a prefix and then a component to the result
    is joining the component first. *)
Lemma join_step_assoc (a p c : string) :
  relative p -> Py.starts_with_sep c = false ->
  Py.join_step a (Py.join_step p c) = Py.join_step (Py.join_step a p) c.
Proof.
  intros Hp Hc. pose proof (join_step_keeps_relative p c Hp Hc) as [_ Hpc].
  destruct Hp as [Hne Hrel].
  rewrite (join_step_relative a _ Hpc), (join_step_relative p c Hc).
  rewrite (join_step_relative _ c Hc), (join_step_relative a p Hrel).
  rewrite (with_sep_append _ p Hne), !append_assoc. reflexivity.
Qed.

Lemma join_step_absolute (a p : string) :
  Py.starts_with_sep p = true -> Py.join_step a p = p.
Proof. intros Hp. unfold Py.join_step. rewrite Hp. reflexivity. Qed.

Lemma join_step_keeps_absolute (p c : string) :
  Py.starts_with_sep p = true -> Py.starts_with_sep c = false ->
  Py.starts_with_sep (Py.join_step p c) = true.
Proof.
  intros Hp Hc. rewrite (join_step_relative p c Hc).
  assert (Hne : with_sep p <> "").
  { unfold with_sep. destruct p; [discriminate Hp|].
    destruct (_ || _); [discriminate|]. discriminate. }
  rewrite starts_with_sep_append by exact Hne.
  unfold with_sep. destruct (_ || _); [exact Hp|].
  rewrite starts_with_sep_append; [exact Hp|]. destruct p; [discriminate Hp|discriminate].
Qed.

Lemma join_step_onto_empty_or_absolute (loc p : string) :
  loc = "" \/ Py.starts_with_sep p = true -> Py.join_step loc p = p.
Proof.
  intros [->|Hp]; [|exact (join_step_absolute loc p Hp)].
  unfold Py.join_step. destruct (Py.starts_with_sep p); reflexivity.
Qed.

Lemma path_join_keeps_absolute (loc : string) (comps : list string) :
  Py.starts_with_sep loc = true ->
  Forall (fun c => Py.starts_with_sep c = false) comps ->
  Py.starts_with_sep (Py.path_join loc comps) = true.
Proof.
  intros Hloc Hcomps. revert loc Hloc. unfold Py.path_join.
  induction Hcomps as [|c comps Hc _ IH]; intros loc Hloc; simpl; [exact Hloc|].
  apply IH, join_step_keeps_absolute; assumption.
Qed.

(** Joining a location with a path that was itself made from the location:
    an empty or absolute location counts once, ... *)
Lemma path_join_rejoin_once (loc : string) (comps rest : list string) :
  loc = "" \/ Py.starts_with_sep loc = true ->
  Forall (fun c => Py.starts_with_sep c = false) comps ->
  Py.path_join loc (Py.path_join loc comps :: rest) =
  Py.path_join loc (comps ++ rest).
Proof.
  intros Hloc Hcomps. unfold Py.path_join at 1 3. simpl.
  rewrite fold_left_app. f_equal.
  apply join_step_onto_empty_or_absolute.
  destruct Hloc as [->|Hloc]; [left; reflexivity|right].
  apply path_join_keeps_absolute; assumption.
Qed.

Lemma join_step_fold (a p : string) (comps : list string) :
  relative p -> Forall (fun c => Py.starts_with_sep c = false) comps ->
  Py.join_step a (fold_left Py.join_step comps p) =
  fold_left Py.join_step comps (Py.join_step a p).
Proof.
  intros Hp Hcomps. revert p Hp.
  induction Hcomps as [|c comps Hc _ IH]; intros p Hp; simpl; [reflexivity|].
  rewrite IH by (apply join_step_keeps_relative; assumption).
  rewrite join_step_assoc by assumption. reflexivity.
Qed.

(** ... a relative one twice. *)
Lemma path_join_rejoin_twice (loc : string) (comps rest : list string) :
  relative loc ->
  Forall (fun c => Py.starts_with_sep c = false) comps ->
  Py.path_join loc (Py.path_join loc comps :: rest) =
  Py.path_join loc (loc :: comps ++ rest).
Proof.
  intros Hloc Hcomps. unfold Py.path_join. simpl.
  rewrite fold_left_app. f_equal. apply join_step_fold; assumption.
Qed.

(** ** More on the loader constructors *)

Section LoadersMore.

Context {Transform Dataset : Type}.
Variable COCODataset : CocoArgs Transform -> Dataset.
Variable FlickrDataset : FlickrArgs Transform -> Dataset.
Variable pad_caption_of : Dataset -> bool.
Variable batch_size_of : Dataset -> Z.
Variable get_indices : Dataset -> list Z.
Variable len_of : Dataset -> Z.

(** X22: [get_loader_coco] raises [AssertionError] exactly when the mode is
    none of ["train"], ["val"] and ["test"] with a batch size of 1.  In
    every other case it builds the dataset and hands it to the loader of
    torch: it then returns a loader exactly when torch accepts the
    arguments, and raises torch's [ValueError] when it does not. *)
Theorem get_loader_coco_outcome (transform : Transform) (mode : string)
    (batch_size : Z) (start_word end_word unk_word : string)
    (num_workers : Z) (cocoapi_loc vocab_glove_file : string) (test_size : Z)
    (pad_caption : bool) :
  (get_loader_coco COCODataset pad_caption_of batch_size_of get_indices
     len_of transform mode batch_size start_word end_word unk_word
     num_workers cocoapi_loc vocab_glove_file test_size pad_caption
     = Raise AssertionError <->
   ~ (mode = "train" \/ mode = "val" \/ (mode = "test" /\ batch_size = 1))) /\
  (mode = "train" \/ mode = "val" \/ (mode = "test" /\ batch_size = 1) ->
   exists annotations_file img_folder,
     let dataset :=
       COCODataset
         (mkCocoArgs transform mode batch_size annotations_file
            vocab_glove_file img_folder start_word end_word unk_word true 20)
     in
     (torch_accepts pad_caption_of batch_size_of len_of dataset num_workers ->
      returns
        (get_loader_coco COCODataset pad_caption_of batch_size_of get_indices
           len_of transform mode batch_size start_word end_word unk_word
           num_workers cocoapi_loc vocab_glove_file test_size pad_caption)) /\
     (~ torch_accepts pad_caption_of batch_size_of len_of dataset num_workers ->
      get_loader_coco COCODataset pad_caption_of batch_size_of get_indices
        len_of transform mode batch_size start_word end_word unk_word
        num_workers cocoapi_loc vocab_glove_file test_size pad_caption
        = Raise ValueError)).
Proof.
  destruct (classic_coco_cond mode batch_size) as [Hcond|Hcond].
  - destruct (get_loader_coco_tail COCODataset pad_caption_of batch_size_of
                get_indices len_of transform mode batch_size start_word
                end_word unk_word num_workers cocoapi_loc vocab_glove_file
                test_size pad_caption Hcond) as (ann & img & Htail).
    rewrite Htail. split.
    + split; [|tauto]. intros Hraise.
      pose proof (make_loader_outcome pad_caption_of batch_size_of get_indices
                    len_of
                    (COCODataset
                       (mkCocoArgs transform mode batch_size ann
                          vocab_glove_file img start_word end_word unk_word
                          true 20)) num_workers) as Hout.
      rewrite Hraise in Hout. destruct Hout as [Hout _]. discriminate Hout.
    + intros _. exists ann, img. cbv zeta. split.
      * intros Hacc.
        destruct (make_loader_returns pad_caption_of batch_size_of get_indices
                    len_of _ _ Hacc) as (dl & -> & _). exact I.
      * apply make_loader_raises.
  - rewrite (get_loader_coco_asserts COCODataset pad_caption_of batch_size_of
               get_indices len_of transform mode batch_size start_word
               end_word unk_word num_workers cocoapi_loc vocab_glove_file
               test_size pad_caption Hcond).
    split; [tauto|]. intros H. contradiction.
Qed.

(** X23: [get_loader_coco] does not look at its arguments [pad_caption] and
    [test_size]: whatever they are, the dataset is built to pad captions,
    with the limit of 20, in the caller's mode and with the caller's
    vocabulary file. *)
Theorem get_loader_coco_always_pads (transform : Transform) (mode : string)
    (batch_size : Z) (start_word end_word unk_word : string)
    (num_workers : Z) (cocoapi_loc vocab_glove_file : string)
    (test_size1 test_size2 : Z) (pad_caption1 pad_caption2 : bool) :
  get_loader_coco COCODataset pad_caption_of batch_size_of get_indices
    len_of transform mode batch_size start_word end_word unk_word
    num_workers cocoapi_loc vocab_glove_file test_size1 pad_caption1 =
  get_loader_coco COCODataset pad_caption_of batch_size_of get_indices
    len_of transform mode batch_size start_word end_word unk_word
    num_workers cocoapi_loc vocab_glove_file test_size2 pad_caption2 /\
  forall dl,
    get_loader_coco COCODataset pad_caption_of batch_size_of get_indices
      len_of transform mode batch_size start_word end_word unk_word
      num_workers cocoapi_loc vocab_glove_file test_size1 pad_caption1
      = Ok dl ->
    exists annotations_file img_folder,
      make_loader pad_caption_of batch_size_of get_indices len_of
        (COCODataset
           (mkCocoArgs transform mode batch_size annotations_file
              vocab_glove_file img_folder start_word end_word unk_word
              true 20)) num_workers = Ok dl /\
      dl_dataset dl =
        COCODataset
          (mkCocoArgs transform mode batch_size annotations_file
             vocab_glove_file img_folder start_word end_word unk_word
             true 20).
Proof.
  split; [reflexivity|]. intros dl Hdl.
  destruct (classic_coco_cond mode batch_size) as [Hcond|Hcond].
  - destruct (get_loader_coco_tail COCODataset pad_caption_of batch_size_of
                get_indices len_of transform mode batch_size start_word
                end_word unk_word num_workers cocoapi_loc vocab_glove_file
                test_size1 pad_caption1 Hcond) as (ann & img & Htail).
    rewrite Htail in Hdl. exists ann, img. split; [exact Hdl|].
    exact (make_loader_dataset pad_caption_of batch_size_of get_indices
             len_of _ _ _ Hdl).
  - rewrite (get_loader_coco_asserts COCODataset pad_caption_of batch_size_of
               get_indices len_of transform mode batch_size start_word
               end_word unk_word num_workers cocoapi_loc vocab_glove_file
               test_size1 pad_caption1 Hcond) in Hdl.
    discriminate Hdl.
Qed.

(** X24: [get_loader_flickr] raises [AssertionError] exactly when the mode
    is none of ["train"], ["val"] and ["test"].  For these three modes it
    builds the dataset and hands it to the loader of torch: it then returns
    a loader exactly when torch accepts the arguments, and raises torch's
    [ValueError] when it does not. *)
Theorem get_loader_flickr_outcome (transform : Transform) (mode : string)
    (batch_size : Z) (start_word end_word unk_word : string)
    (num_workers : Z) (flickr_loc vocab_glove_file : string)
    (pad_caption : bool) (pad_limit : Z) (parse_mode : string) :
  (get_loader_flickr FlickrDataset pad_caption_of batch_size_of get_indices
     len_of transform mode batch_size start_word end_word unk_word
     num_workers flickr_loc vocab_glove_file pad_caption pad_limit parse_mode
     = Raise AssertionError <->
   ~ (mode = "train" \/ mode = "val" \/ mode = "test")) /\
  (mode = "train" \/ mode = "val" \/ mode = "test" ->
   exists sentences_file sentences_root annotations_root image_root,
     let dataset :=
       FlickrDataset
         (mkFlickrArgs transform mode batch_size sentences_file
            sentences_root annotations_root image_root vocab_glove_file
            parse_mode pad_caption start_word end_word unk_word pad_limit)
     in
     (torch_accepts pad_caption_of batch_size_of len_of dataset num_workers ->
      returns
        (get_loader_flickr FlickrDataset pad_caption_of batch_size_of
           get_indices len_of transform mode batch_size start_word end_word
           unk_word num_workers flickr_loc vocab_glove_file pad_caption
           pad_limit parse_mode)) /\
     (~ torch_accepts pad_caption_of batch_size_of len_of dataset num_workers ->
      get_loader_flickr FlickrDataset pad_caption_of batch_size_of
        get_indices len_of transform mode batch_size start_word end_word
        unk_word num_workers flickr_loc vocab_glove_file pad_caption
        pad_limit parse_mode = Raise ValueError)).
Proof.
  destruct (valid_mode mode) eqn:Hmode.
  - pose proof (valid_mode_cases mode Hmode) as Hcases.
    rewrite (get_loader_flickr_folders FlickrDataset pad_caption_of
               batch_size_of get_indices len_of transform mode batch_size
               start_word end_word unk_word num_workers flickr_loc
               vocab_glove_file pad_caption pad_limit parse_mode Hmode).
    split.
    + split; [|tauto]. intros Hraise.
      match type of Hraise with
      | make_loader _ _ _ _ ?ds _ = _ =>
          pose proof (make_loader_outcome pad_caption_of batch_size_of
                        get_indices len_of ds num_workers) as Hout
      end.
      rewrite Hraise in Hout. destruct Hout as [Hout _]. discriminate Hout.
    + intros _. eexists _, _, _, _. cbv zeta. split.
      * intros Hacc.
        destruct (make_loader_returns pad_caption_of batch_size_of get_indices
                    len_of _ _ Hacc) as (dl & -> & _). exact I.
      * apply make_loader_raises.
  - assert (Hnot : ~ (mode = "train" \/ mode = "val" \/ mode = "test")).
    { intros [->|[->| ->]]; discriminate Hmode. }
    rewrite (get_loader_flickr_asserts FlickrDataset pad_caption_of
               batch_size_of get_indices len_of transform mode batch_size
               start_word end_word unk_word num_workers flickr_loc
               vocab_glove_file pad_caption pad_limit parse_mode Hmode).
    split; [tauto|]. intros H. contradiction.
Qed.

(** X25: with an empty or an absolute [flickr_loc] the dataset is pointed at
    the folders [data/flickr_30kentities/...] under the location, each down
    to the folder of the mode; the result is that of the loader of torch on
    this dataset. *)
Theorem get_loader_flickr_folders_under_location (transform : Transform)
    (mode : string) (batch_size : Z) (start_word end_word unk_word : string)
    (num_workers : Z) (flickr_loc vocab_glove_file : string)
    (pad_caption : bool) (pad_limit : Z) (parse_mode : string) :
  valid_mode mode = true ->
  flickr_loc = "" \/ Py.starts_with_sep flickr_loc = true ->
  get_loader_flickr FlickrDataset pad_caption_of batch_size_of get_indices
    len_of transform mode batch_size start_word end_word unk_word
    num_workers flickr_loc vocab_glove_file pad_caption pad_limit parse_mode =
  make_loader pad_caption_of batch_size_of get_indices len_of
    (FlickrDataset
       (mkFlickrArgs transform mode batch_size
          (Py.path_join flickr_loc
             ["data"; "flickr_30kentities"; "annotations_flickr";
              "Sentences"; mode; "data.json"])
          (Py.path_join flickr_loc
             ["data"; "flickr_30kentities"; "annotations_flickr";
              "Sentences"; mode])
          (Py.path_join flickr_loc
             ["data"; "flickr_30kentities"; "annotations_flickr";
              "Annotations"; mode])
          (Py.path_join flickr_loc
             ["data"; "flickr_30kentities"; "flickr30k-images"; mode])
          vocab_glove_file parse_mode pad_caption start_word end_word
          unk_word pad_limit)) num_workers.
Proof.
  intros Hmode Hloc.
  rewrite (get_loader_flickr_folders FlickrDataset pad_caption_of
             batch_size_of get_indices len_of) by exact Hmode.
  rewrite !(path_join_rejoin_once flickr_loc _ [mode] Hloc)
    by (repeat constructor).
  reflexivity.
Qed.

(** X26: with a relative, non-empty [flickr_loc] the location is applied
    twice: the folders handed to the dataset are those of
    [flickr_loc/flickr_loc/data/flickr_30kentities/...]; the result is that
    of the loader of torch on this dataset. *)
Theorem get_loader_flickr_relative_location_twice (transform : Transform)
    (mode : string) (batch_size : Z) (start_word end_word unk_word : string)
    (num_workers : Z) (flickr_loc vocab_glove_file : string)
    (pad_caption : bool) (pad_limit : Z) (parse_mode : string) :
  valid_mode mode = true ->
  relative flickr_loc ->
  get_loader_flickr FlickrDataset pad_caption_of batch_size_of get_indices
    len_of transform mode batch_size start_word end_word unk_word
    num_workers flickr_loc vocab_glove_file pad_caption pad_limit parse_mode =
  make_loader pad_caption_of batch_size_of get_indices len_of
    (FlickrDataset
       (mkFlickrArgs transform mode batch_size
          (Py.path_join flickr_loc
             [flickr_loc; "data"; "flickr_30kentities";
              "annotations_flickr"; "Sentences"; mode; "data.json"])
          (Py.path_join flickr_loc
             [flickr_loc; "data"; "flickr_30kentities";
              "annotations_flickr"; "Sentences"; mode])
          (Py.path_join flickr_loc
             [flickr_loc; "data"; "flickr_30kentities";
              "annotations_flickr"; "Annotations"; mode])
          (Py.path_join flickr_loc
             [flickr_loc; "data"; "flickr_30kentities";
              "flickr30k-images"; mode])
          vocab_glove_file parse_mode pad_caption start_word end_word
          unk_word pad_limit)) num_workers.
Proof.
  intros Hmode Hloc.
  rewrite (get_loader_flickr_folders FlickrDataset pad_caption_of
             batch_size_of get_indices len_of) by exact Hmode.
  rewrite !(path_join_rejoin_twice flickr_loc _ [mode] Hloc)
    by (repeat constructor).
  reflexivity.
Qed.

End LoadersMore.

(** X22 (witness): the training loader with batches of 8, and with batches
    of 0. *)
Lemma get_loader_coco_outcome_witness :
  returns
    (get_loader_coco Sample.Coco Sample.pad_caption_of Sample.batch_size_of
       Sample.get_indices Sample.len_of tt "train" 8 "<start>" "<end>"
       "<unk>" 4 "" "vocab.json" 1000 true) /\
  get_loader_coco Sample.Coco Sample.pad_caption_of Sample.batch_size_of
    Sample.get_indices Sample.len_of tt "train" 0 "<start>" "<end>" "<unk>"
    4 "" "vocab.json" 1000 true = Raise ValueError /\
  get_loader_coco Sample.Coco Sample.pad_caption_of Sample.batch_size_of
    Sample.get_indices Sample.len_of tt "test" 8 "<start>" "<end>" "<unk>"
    4 "" "vocab.json" 1000 true = Raise AssertionError.
Proof.
  split; [|split].
  - destruct (proj2 (get_loader_coco_outcome Sample.Coco
                       Sample.pad_caption_of Sample.batch_size_of
                       Sample.get_indices Sample.len_of tt "train" 8
                       "<start>" "<end>" "<unk>" 4 "" "vocab.json" 1000 true))
      as (ann & img & Hret & _); [left; reflexivity|].
    apply Hret. unfold torch_accepts, Sample.len_of. simpl. lia.
  - destruct (proj2 (get_loader_coco_outcome Sample.Coco
                       Sample.pad_caption_of Sample.batch_size_of
                       Sample.get_indices Sample.len_of tt "train" 0
                       "<start>" "<end>" "<unk>" 4 "" "vocab.json" 1000 true))
      as (ann & img & _ & Hraise); [left; reflexivity|].
    apply Hraise. unfold torch_accepts. simpl. lia.
  - apply (proj1 (get_loader_coco_outcome Sample.Coco
                    Sample.pad_caption_of Sample.batch_size_of
                    Sample.get_indices Sample.len_of tt "test" 8
                    "<start>" "<end>" "<unk>" 4 "" "vocab.json" 1000 true)).
    intros [H|[H|[_ H]]]; discriminate H.
Defined.

(** X23 (witness): the training loader asked not to pad. *)
Lemma get_loader_coco_always_pads_witness :
  exists annotations_file img_folder,
    make_loader Sample.pad_caption_of Sample.batch_size_of Sample.get_indices
      Sample.len_of
      (Sample.Coco
         (mkCocoArgs tt "train" 8 annotations_file "vocab.json" img_folder
            "<start>" "<end>" "<unk>" true 20)) 4 =
    Ok (mkDataLoader
          (Sample.Coco
             (mkCocoArgs tt "train" 8
                "data/mscoco/annotations/captions_train2014.json"
                "vocab.json" "data/mscoco/images/train2014/" "<start>"
                "<end>" "<unk>" true 20))
          1 false (Some (mkBatchSampler [0; 1; 2] 8 false)) 4 false) /\
    dl_dataset
      (mkDataLoader
         (Sample.Coco
            (mkCocoArgs tt "train" 8
               "data/mscoco/annotations/captions_train2014.json"
               "vocab.json" "data/mscoco/images/train2014/" "<start>"
               "<end>" "<unk>" true 20))
         1 false (Some (mkBatchSampler [0; 1; 2] 8 false)) 4 false) =
    Sample.Coco
      (mkCocoArgs tt "train" 8 annotations_file "vocab.json" img_folder
         "<start>" "<end>" "<unk>" true 20).
Proof.
  apply (proj2 (get_loader_coco_always_pads Sample.Coco Sample.pad_caption_of
                  Sample.batch_size_of Sample.get_indices Sample.len_of tt
                  "train" 8 "<start>" "<end>" "<unk>" 4 "" "vocab.json"
                  1000 0 false true)).
  reflexivity.
Defined.

(** X24 (witness): the validation loader with batches of 8, and with a
    negative number of workers. *)
Lemma get_loader_flickr_outcome_witness :
  returns
    (get_loader_flickr Sample.Flickr Sample.pad_caption_of
       Sample.batch_size_of Sample.get_indices Sample.len_of tt "val" 8
       "<start>" "<end>" "<unk>" 1 "/srv" "vocab.json" true 20 "phrase") /\
  get_loader_flickr Sample.Flickr Sample.pad_caption_of Sample.batch_size_of
    Sample.get_indices Sample.len_of tt "val" 8 "<start>" "<end>" "<unk>"
    (-1) "/srv" "vocab.json" true 20 "phrase" = Raise ValueError.
Proof.
  split.
  - destruct (proj2 (get_loader_flickr_outcome Sample.Flickr
                       Sample.pad_caption_of Sample.batch_size_of
                       Sample.get_indices Sample.len_of tt "val" 8
                       "<start>" "<end>" "<unk>" 1 "/srv" "vocab.json" true
                       20 "phrase"))
      as (sf & sr & ar & ir & Hret & _); [right; left; reflexivity|].
    apply Hret. unfold torch_accepts, Sample.len_of. simpl. lia.
  - destruct (proj2 (get_loader_flickr_outcome Sample.Flickr
                       Sample.pad_caption_of Sample.batch_size_of
                       Sample.get_indices Sample.len_of tt "val" 8
                       "<start>" "<end>" "<unk>" (-1) "/srv" "vocab.json"
                       true 20 "phrase"))
      as (sf & sr & ar & ir & _ & Hraise); [right; left; reflexivity|].
    apply Hraise. unfold torch_accepts. simpl. lia.
Defined.

(** X25 (witness): the validation split under [/srv]. *)
Lemma get_loader_flickr_folders_under_location_witness :
  get_loader_flickr Sample.Flickr Sample.pad_caption_of Sample.batch_size_of
    Sample.get_indices Sample.len_of tt "val" 8 "<start>" "<end>" "<unk>" 1
    "/srv" "vocab.json" true 20 "phrase" =
  make_loader Sample.pad_caption_of Sample.batch_size_of Sample.get_indices
    Sample.len_of
    (Sample.Flickr
       (mkFlickrArgs tt "val" 8
          (Py.path_join "/srv"
             ["data"; "flickr_30kentities"; "annotations_flickr";
              "Sentences"; "val"; "data.json"])
          (Py.path_join "/srv"
             ["data"; "flickr_30kentities"; "annotations_flickr";
              "Sentences"; "val"])
          (Py.path_join "/srv"
             ["data"; "flickr_30kentities"; "annotations_flickr";
              "Annotations"; "val"])
          (Py.path_join "/srv"
             ["data"; "flickr_30kentities"; "flickr30k-images"; "val"])
          "vocab.json" "phrase" true "<start>" "<end>" "<unk>" 20)) 1.
Proof.
  apply (get_loader_flickr_folders_under_location Sample.Flickr
           Sample.pad_caption_of Sample.batch_size_of Sample.get_indices
           Sample.len_of).
  - reflexivity.
  - right. reflexivity.
Defined.

(** X26 (witness): the training split for the relative location
    [datasets]. *)
Lemma get_loader_flickr_relative_location_twice_witness :
  get_loader_flickr Sample.Flickr Sample.pad_caption_of Sample.batch_size_of
    Sample.get_indices Sample.len_of tt "train" 8 "<start>" "<end>" "<unk>"
    1 "datasets" "vocab.json" true 20 "phrase" =
  make_loader Sample.pad_caption_of Sample.batch_size_of Sample.get_indices
    Sample.len_of
    (Sample.Flickr
       (mkFlickrArgs tt "train" 8
          (Py.path_join "datasets"
             ["datasets"; "data"; "flickr_30kentities";
              "annotations_flickr"; "Sentences"; "train"; "data.json"])
          (Py.path_join "datasets"
             ["datasets"; "data"; "flickr_30kentities";
              "annotations_flickr"; "Sentences"; "train"])
          (Py.path_join "datasets"
             ["datasets"; "data"; "flickr_30kentities";
              "annotations_flickr"; "Annotations"; "train"])
          (Py.path_join "datasets"
             ["datasets"; "data"; "flickr_30kentities";
              "flickr30k-images"; "train"])
          "vocab.json" "phrase" true "<start>" "<end>" "<unk>" 20)) 1.
Proof.
  apply (get_loader_flickr_relative_location_twice Sample.Flickr
           Sample.pad_caption_of Sample.batch_size_of Sample.get_indices
           Sample.len_of).
  - reflexivity.
  - split; [discriminate|reflexivity].
Defined.

(** The image folder of that loader, written out. *)
Example flickr_relative_image_folder :
  Py.path_join "datasets"
    ["datasets"; "data"; "flickr_30kentities"; "flickr30k-images"; "train"] =
  "datasets/datasets/data/flickr_30kentities/flickr30k-images/train".
Proof. vm_compute. reflexivity. Qed.
